(** * Parquet layout tools: optimizer, pruning simulator, metadata inspector

    A shallow embedding of the three scripts of the repository

    - [scripts/optimizeParquet.py]      (module [optimizeParquet]),
    - [scripts/analyze_stats.py]        (module [analyze_stats]),
    - [scripts/checkParquetMetadata.py] (module [checkParquetMetadata]),

    together with the part of Python and of the pyarrow library they rely
    on (modules [Py] and [pa]).  Definitions come first, the properties of
    the scripts follow. *)

From Stdlib Require Import ZArith QArith Ascii String DecimalString.
From Stdlib Require Import Bool Lia Permutation Sorted OrderedTypeEx List.
Import ListNotations.

Local Open Scope Z_scope.

(** ** Python values and control *)

Module Py.

(** Exceptions the scripts can meet. *)
Inductive exn : Type :=
| ZeroDivisionError
| IndexError
| ValueError
| TypeError
| AttributeError
| ArrowInvalid.

Inductive result (A : Type) : Type :=
| Ok (a : A)
| Raise (e : exn).
Arguments Ok {A} a.
Arguments Raise {A} e.

(** A computation that threads a store [S] (the lines printed so far, or
    the files written so far) and may raise: what was printed or written
    before the exception stays. *)
Definition M (S A : Type) : Type := S -> S * result A.

Definition ret {S A} (a : A) : M S A := fun s => (s, Ok a).

Definition bind {S A B} (m : M S A) (k : A -> M S B) : M S B :=
  fun s =>
    match m s with
    | (s', Ok a) => k a s'
    | (s', Raise e) => (s', Raise e)
    end.

Definition raise {S A} (e : exn) : M S A := fun s => (s, Raise e).

Definition lift {S A} (r : result A) : M S A := fun s => (s, r).

(** [emit x]: append [x] to the store ([print], or writing one file). *)
Definition emit {S} (x : S) : M (list S) unit := fun s => (s ++ [x], Ok tt).

(** [for x in xs: body x] *)
Fixpoint for_each {S A} (xs : list A) (body : A -> M S unit) : M S unit :=
  match xs with
  | [] => ret tt
  | x :: rest => bind (body x) (fun _ => for_each rest body)
  end.

(** [range(n)] *)
Definition range (n : Z) : list Z := map Z.of_nat (seq 0 (Z.to_nat n)).

(** [a // b] on integers: floor division, as [Z.div]. *)
Definition floordiv (a b : Z) : result Z :=
  if b =? 0 then Raise ZeroDivisionError else Ok (a / b).

(** [a / b] (true division) on integers, kept exact as a rational. *)
Definition truediv (a b : Z) : result Q :=
  if b =? 0 then Raise ZeroDivisionError else Ok (inject_Z a / inject_Z b)%Q.

(** Scalars stored in a column: text or integers. *)
Inductive scalar : Type :=
| SStr (s : string)
| SInt (z : Z).

(** [a <= b], the natural ordering of each type.  A column holds one type;
    between an integer and a text (where Python raises [TypeError]) the
    order is completed with integers first. *)
Definition le (a b : scalar) : bool :=
  match a, b with
  | SStr x, SStr y => String.leb x y
  | SInt x, SInt y => x <=? y
  | SInt _, SStr _ => true
  | SStr _, SInt _ => false
  end.

(** [str(a)] *)
Definition str (a : scalar) : string :=
  match a with
  | SStr s => s
  | SInt z => NilZero.string_of_int (Z.to_int z)
  end.

(** [str(a)] where [a] is a scalar or [None]. *)
Definition str_of (a : option scalar) : string :=
  match a with
  | Some a => str a
  | None => "None"
  end.

(** Text is held as its UTF-8 bytes; a character starts at every byte
    that is not a continuation byte (a byte of the form 10xxxxxx). *)
Definition continuation (c : ascii) : bool :=
  match c with
  | Ascii _ _ _ _ _ _ b6 b7 => b7 && negb b6
  end.

(** [len(s)]: the number of characters. *)
Fixpoint len (s : string) : nat :=
  match s with
  | EmptyString => 0%nat
  | String c s' => if continuation c then len s' else S (len s')
  end.

(** [s[:n]]: the first [n] characters. *)
Fixpoint prefix_of (n : nat) (s : string) : string :=
  match s with
  | EmptyString => EmptyString
  | String c s' =>
      if continuation c then String c (prefix_of n s')
      else match n with
           | O => EmptyString
           | S n' => String c (prefix_of n' s')
           end
  end.

(** [s.endswith(suffix)] *)
Definition endswith (s suffix : string) : bool :=
  let n := String.length s in
  let k := String.length suffix in
  (k <=? n)%nat && String.eqb (String.substring (n - k) k s) suffix.

End Py.

Import Py.

Declare Scope py_scope.
Notation "x <- m ;; k" := (Py.bind m (fun x => k))
  (at level 61, m at next level, right associativity) : py_scope.
Notation "m ;;; k" := (Py.bind m (fun _ => k))
  (at level 61, right associativity) : py_scope.
Local Open Scope py_scope.

(** ** The pyarrow interface used by the scripts

    The library is not part of the repository: this module records the
    behaviour the scripts rely on.  The keys of the rows of a table are
    not null; a chunk of null keys is met in the metadata of a file only,
    as statistics without bounds. *)

Module pa.

Record row : Type := { origin : scalar; others : list scalar }.

(** A table: the names of the columns after [origin], and the rows. *)
Record table : Type := { other_columns : list string; rows : list row }.

Definition num_rows_of (t : table) : Z := Z.of_nat (List.length (rows t)).

(** Stable insertion of [x] before the first element whose key is not
    smaller. *)
Fixpoint insert_by {A} (key : A -> scalar) (x : A) (l : list A) : list A :=
  match l with
  | [] => [x]
  | y :: l' => if Py.le (key x) (key y) then x :: l else y :: insert_by key x l'
  end.

Definition stable_sort_by {A} (key : A -> scalar) (l : list A) : list A :=
  fold_right (insert_by key) [] l.

(** [pa.compute.sort_indices(table, sort_keys=[("origin", "ascending")])]:
    the positions of the rows in ascending key order, equal keys in their
    original order (the sort is stable). *)
Definition sort_indices (t : table) : list nat :=
  map fst (stable_sort_by (fun ir => origin (snd ir))
                          (combine (seq 0 (List.length (rows t))) (rows t))).

Fixpoint traverse {A B} (f : A -> result B) (l : list A) : result (list B) :=
  match l with
  | [] => Ok []
  | x :: l' =>
      match f x with
      | Raise e => Raise e
      | Ok y => match traverse f l' with
                | Raise e => Raise e
                | Ok ys => Ok (y :: ys)
                end
      end
  end.

(** [table.take(indices)]: gather rows by position. *)
Definition take (t : table) (indices : list nat) : result table :=
  match traverse (fun i => match nth_error (rows t) i with
                           | Some r => Ok r
                           | None => Raise IndexError
                           end) indices with
  | Ok rs => Ok {| other_columns := other_columns t; rows := rs |}
  | Raise e => Raise e
  end.

(** [table.slice(offset, length)]: a negative offset is refused, offset
    and length are clipped to the table. *)
Definition slice (t : table) (offset length : Z) : result table :=
  if offset <? 0 then Raise IndexError
  else Ok {| other_columns := other_columns t;
             rows := firstn (Z.to_nat length) (skipn (Z.to_nat offset) (rows t)) |}.

(** Column statistics of one row group.  The bounds are there when the
    chunk holds a value ([has_min_max]); a chunk whose values are all
    null has statistics without bounds. *)
Record statistics : Type := { bounds : option (scalar * scalar) }.

(** [stats.min] and [stats.max]: [None] without bounds. *)
Definition min (s : statistics) : option scalar := option_map fst (bounds s).
Definition max (s : statistics) : option scalar := option_map snd (bounds s).

(** Column chunk metadata: [statistics] is [None] when [is_stats_set] is
    false. *)
Record column_chunk : Type :=
  { stats : option statistics;
    bloom_filter_offset : option Z }.

Definition is_stats_set (c : column_chunk) : bool :=
  match stats c with Some _ => true | None => false end.

(** Row group metadata.  [RowGroupMetaData] has the attributes
    [num_rows], [total_byte_size] and the column chunks; it has no
    attribute [total_compressed_size] (only column chunks have one). *)
Record row_group_md : Type :=
  { num_rows : Z;
    total_byte_size : Z;
    columns : list column_chunk }.

(** [rg.total_compressed_size] on a row group: [AttributeError]. *)
Definition total_compressed_size (g : row_group_md) : result Z :=
  Raise AttributeError.

(** What [pq.read_metadata] returns. *)
Record metadata : Type :=
  { schema : list string;
    md_num_rows : Z;
    row_groups : list row_group_md }.

Definition num_columns (md : metadata) : Z := Z.of_nat (List.length (schema md)).
Definition num_row_groups (md : metadata) : Z := Z.of_nat (List.length (row_groups md)).

(** A stored row group and a stored file. *)
Record row_group : Type := { rg_rows : list row; rg_md : row_group_md }.

Record parquet : Type :=
  { pq_other_columns : list string;
    pq_row_groups : list row_group }.

Definition read_table (f : parquet) : table :=
  {| other_columns := pq_other_columns f;
     rows := concat (map rg_rows (pq_row_groups f)) |}.

Definition read_metadata (f : parquet) : metadata :=
  {| schema := "origin"%string :: pq_other_columns f;
     md_num_rows := Z.of_nat (List.length (concat (map rg_rows (pq_row_groups f))));
     row_groups := map rg_md (pq_row_groups f) |}.

(** Smallest and largest value of a column chunk. *)
Definition min_of (x : scalar) (xs : list scalar) : scalar :=
  fold_left (fun m y => if Py.le m y then m else y) xs x.

Definition max_of (x : scalar) (xs : list scalar) : scalar :=
  fold_left (fun m y => if Py.le y m then m else y) xs x.

Definition statistics_of (values : list scalar) : option statistics :=
  match values with
  | [] => None
  | x :: xs => Some {| bounds := Some (min_of x xs, max_of x xs) |}
  end.

(** The values of column [j] (column 0 is [origin]) in a run of rows;
    [None] when a row has no such column. *)
Fixpoint column_values (j : nat) (g : list row) : option (list scalar) :=
  match g with
  | [] => Some []
  | r :: g' =>
      match nth_error (origin r :: others r) j, column_values j g' with
      | Some v, Some vs => Some (v :: vs)
      | _, _ => None
      end
  end.

(** Contiguous runs of [size] rows: run [i] starts at row [i * size]
    (no run for [size = 0], which the library refuses). *)
Definition runs {A} (size : nat) (l : list A) : list (list A) :=
  map (fun i => firstn size (skipn (i * size) l))
      (seq 0 ((List.length l + size - 1) / size)).

(** The row group written for one run of rows.  With
    [write_statistics=True] every column chunk of a non-empty run carries
    statistics.  Byte sizes depend on the codec ([sizes] gives the
    uncompressed and the compressed size; the row group metadata keeps
    the first). *)
Definition write_row_group (ncols : nat) (sizes : list row -> Z * Z)
           (write_statistics : bool) (g : list row) : row_group :=
  {| rg_rows := g;
     rg_md :=
       {| num_rows := Z.of_nat (List.length g);
          total_byte_size := fst (sizes g);
          columns :=
            map (fun j =>
                   {| stats := if write_statistics
                               then match column_values j g with
                                    | Some vs => statistics_of vs
                                    | None => None
                                    end
                               else None;
                      bloom_filter_offset := None |})
                (seq 0 ncols) |} |}.

(** The file [pq.write_table] writes when it accepts its arguments: the
    rows are cut, in order, into row groups of [row_group_size] rows; an
    empty table gives one row group of 0 rows, whose column chunks carry
    no statistics. *)
Definition write_table (sizes : list row -> Z * Z) (t : table)
           (row_group_size : Z) (write_statistics : bool) : parquet :=
  {| pq_other_columns := other_columns t;
     pq_row_groups :=
       map (write_row_group (S (List.length (other_columns t))) sizes write_statistics)
           match rows t with
           | [] => [[]]
           | _ => runs (Z.to_nat row_group_size) (rows t)
           end |}.

(** The keyword arguments the optimizer passes to [pq.write_table]. *)
Inductive keyword : Type :=
| compression
| compression_level
| use_dictionary
| write_statistics
| row_group_size
| write_bloom_filter_for_columns
| bloom_filter_fpp.

(** The keywords [pq.write_table] knows; it hands the others to the
    constructor of its writer, which refuses them. *)
Definition accepted (k : keyword) : bool :=
  match k with
  | write_bloom_filter_for_columns | bloom_filter_fpp => false
  | _ => true
  end.

(** [pq.write_table(table, where, **keywords)]: with a keyword that is
    not accepted the call raises [TypeError] and leaves no file behind
    (the file it had opened is removed). *)
Definition pq_write_table (sizes : list row -> Z * Z) (t : table)
           (keywords : list keyword) (size : Z) (statistics : bool)
  : result parquet :=
  if forallb accepted keywords
  then Ok (write_table sizes t size statistics)
  else Raise TypeError.

End pa.

Import pa.

(** ** The file system seen by the command-line tools *)

Module fs.

(** A file is a readable Parquet file or something [pyarrow] rejects. *)
Inductive file : Type :=
| Parquet (f : parquet)
| Unreadable.

Inductive node : Type :=
| File (f : file)
| Dir (entries : list (string * file)).

(** The file system: what is found at a path. *)
Definition t : Type := string -> option node.

(** [Path(d).glob("*.parquet")] over the entries of a directory. *)
Definition glob_parquet (entries : list (string * file)) : list (string * file) :=
  filter (fun e => Py.endswith (fst e) ".parquet") entries.

(** [sorted(paths)]: ascending by name. *)
Definition sorted (entries : list (string * file)) : list (string * file) :=
  stable_sort_by (fun e => SStr (fst e)) entries.

(** [Path.stem] of a name matched by the pattern: the name without its
    last suffix (a name that is only a suffix keeps it). *)
Definition stem (name : string) : string :=
  if Py.endswith name ".parquet" && (8 <? String.length name)%nat
  then String.substring 0 (String.length name - 8) name
  else name.

End fs.

(** ** scripts/optimizeParquet.py *)

Module optimizeParquet.

(** The output directory: the files written so far, in writing order. *)
Definition outputs : Type := list (string * parquet).

Section Optimizer.

(** Byte sizes of a written row group (decided by the codec). *)
Variable sizes : list row -> Z * Z.

Definition write_optimized_parquet (t : table) (output_file : string)
  : M outputs unit :=
  f <- Py.lift (pq_write_table sizes t
                  [compression; compression_level; use_dictionary;
                   write_statistics; row_group_size;
                   write_bloom_filter_for_columns; bloom_filter_fpp]
                  100000 true) ;;
  Py.emit (output_file, f).

(** The body of [optimize_parquet_file] once [sort_indices] has returned
    [sorted_indices]. *)
Definition optimize_sorted (base_name : string) (t : table)
           (sorted_indices : list nat) (max_rows_per_file : Z)
  : M outputs unit :=
  let num_rows := num_rows_of t in
  t <- Py.lift (take t sorted_indices) ;;
  if num_rows >? max_rows_per_file then
    num_chunks <- Py.lift (Py.floordiv (num_rows + max_rows_per_file - 1)
                                       max_rows_per_file) ;;
    Py.for_each (Py.range num_chunks) (fun i =>
      let start := i * max_rows_per_file in
      let end_ := Z.min ((i + 1) * max_rows_per_file) num_rows in
      chunk <- Py.lift (slice t start (end_ - start)) ;;
      write_optimized_parquet chunk
        (base_name ++ "_" ++ Py.str (SInt i) ++ ".parquet")%string)
  else
    write_optimized_parquet t (base_name ++ ".parquet")%string.

Definition optimize_parquet_file (input_file : string * fs.file)
           (max_rows_per_file : Z) : M outputs unit :=
  match snd input_file with
  | fs.Unreadable => Py.raise ArrowInvalid
  | fs.Parquet f =>
      let t := read_table f in
      optimize_sorted (fs.stem (fst input_file)) t (sort_indices t)
                      max_rows_per_file
  end.

(** Parsed command line. *)
Record args : Type :=
  { input_dir : string; output_dir : string; max_rows : Z }.

(** What one run of the tool leaves behind. *)
Record run : Type :=
  { exit_status : Z;
    processed : list string;
    errors : list exn;
    written : outputs }.

(** [try: optimize_parquet_file(pf, ...) except Exception: print(...)] for
    each file in turn. *)
Fixpoint process_all (files : list (string * fs.file)) (max_rows_per_file : Z)
         (r : run) : run :=
  match files with
  | [] => r
  | pf :: rest =>
      let '(w, res) := optimize_parquet_file pf max_rows_per_file (written r) in
      process_all rest max_rows_per_file
        {| exit_status := exit_status r;
           processed := processed r ++ [fst pf];
           errors := match res with
                     | Ok _ => errors r
                     | Raise e => errors r ++ [e]
                     end;
           written := w |}
  end.

Definition main (a : args) (disk : fs.t) : run :=
  let start := {| exit_status := 0; processed := []; errors := []; written := [] |} in
  match disk (input_dir a) with
  | None =>
      {| exit_status := 1; processed := []; errors := []; written := [] |}
  | Some n =>
      let parquet_files :=
        fs.sorted (fs.glob_parquet match n with
                                   | fs.Dir entries => entries
                                   | fs.File _ => []
                                   end) in
      process_all parquet_files (max_rows a) start
  end.

End Optimizer.

End optimizeParquet.

(** ** scripts/analyze_stats.py *)

Module analyze_stats.

(** One entry of [stats_list]: the dict with keys rg, min, max, rows;
    min and max are [None] together. *)
Record entry : Type :=
  { e_rg : Z; e_bounds : option (scalar * scalar); e_rows : Z }.

(** An entry whose min and max are values. *)
Record stat : Type :=
  { rg : Z; st_min : scalar; st_max : scalar; st_rows : Z }.

Inductive indicator : Type :=
| Blank        (* first row group with statistics *)
| OVERLAP
| OK.

(** One line of the per-row-group listing. *)
Inductive table_line : Type :=
| StatsLine (rg_idx rows : Z) (min_display max_display : string)
            (overlap_indicator : indicator)
| PasDeStats (rg_idx rows : Z).

Record loop_state : Type :=
  { stats_list : list entry;
    prev_max : option string;
    overlaps : Z;
    lines : list table_line }.

(** [v[:28] + ".." if len(v) > 30 else v] *)
Definition display (v : string) : string :=
  if (30 <? Py.len v)%nat then (Py.prefix_of 28 v ++ "..")%string else v.

(** The body of the loop over row groups. *)
Definition visit (col_idx : nat) (rg_idx : Z) (g : row_group_md)
           (st : loop_state) : result loop_state :=
  match nth_error (columns g) col_idx with
  | None => Raise IndexError
  | Some col =>
      match stats col with
      | Some s =>
          let min_val := Py.str_of (min s) in
          let max_val := Py.str_of (max s) in
          let '(overlap_indicator, overlaps') :=
            match prev_max st with
            | Some pm =>
                if String.ltb min_val pm
                then (OVERLAP, overlaps st + 1)
                else (OK, overlaps st)
            | None => (Blank, overlaps st)
            end in
          Ok {| stats_list :=
                  stats_list st ++
                  [{| e_rg := rg_idx; e_bounds := bounds s;
                      e_rows := num_rows g |}];
                prev_max := Some max_val;
                overlaps := overlaps';
                lines :=
                  lines st ++
                  [StatsLine rg_idx (num_rows g) (display min_val)
                             (display max_val) overlap_indicator] |}
      | None =>
          Ok {| stats_list := stats_list st;
                prev_max := prev_max st;
                overlaps := overlaps st;
                lines := lines st ++ [PasDeStats rg_idx (num_rows g)] |}
      end
  end.

(** [for rg_idx in range(num_to_show)], from row group [rg_idx] on. *)
Fixpoint loop (col_idx : nat) (rg_idx : Z) (groups : list row_group_md)
         (st : loop_state) : result loop_state :=
  match groups with
  | [] => Ok st
  | g :: rest =>
      match visit col_idx rg_idx g st with
      | Ok st' => loop col_idx (rg_idx + 1) rest st'
      | Raise e => Raise e
      end
  end.

Definition initial : loop_state :=
  {| stats_list := []; prev_max := None; overlaps := 0; lines := [] |}.

(** "ANALYSE DU TRI" *)
Inductive sort_verdict : Type :=
| ParfaitementTriees
| PartiellementTriees (overlaps total_comparisons : Z) (overlap_percentage : Q).

Definition sort_analysis (st : loop_state) : option sort_verdict :=
  let n := Z.of_nat (List.length (stats_list st)) in
  if n >? 1 then
    let total_comparisons := n - 1 in
    let overlap_percentage :=
      (inject_Z (overlaps st) / inject_Z total_comparisons * 100)%Q in
    if overlaps st =? 0 then Some ParfaitementTriees
    else Some (PartiellementTriees (overlaps st) total_comparisons
                                   overlap_percentage)
  else None.

(** "SIMULATION DE REQUETE" *)
Inductive grade : Type :=
| Excellent
| Correct
| Mauvais.

Definition classify (skip_percentage : Q) : grade :=
  if negb (Qle_bool skip_percentage 80) then Excellent
  else if negb (Qle_bool skip_percentage 50) then Correct
  else Mauvais.

(** The counting loop: [(would_download, would_skip)]. *)
Definition count_step (test_value : scalar) (acc : Z * Z) (s : stat) : Z * Z :=
  let '(would_download, would_skip) := acc in
  if Py.le (st_min s) test_value && Py.le test_value (st_max s)
  then (would_download + 1, would_skip)
  else (would_download, would_skip + 1).

Definition count_query (test_value : scalar) (l : list stat) : Z * Z :=
  fold_left (count_step test_value) l (0, 0).

Record simulation : Type :=
  { test_value : scalar;
    would_download : Z;
    would_skip : Z;
    total_rg : Z;
    skip_percentage : Q;
    verdict : grade }.

Definition simulate_with (v : scalar) (l : list stat) : simulation :=
  let '(would_download, would_skip) := count_query v l in
  let total_rg := Z.of_nat (List.length l) in
  let skip_percentage := (inject_Z would_skip / inject_Z total_rg * 100)%Q in
  {| test_value := v;
     would_download := would_download;
     would_skip := would_skip;
     total_rg := total_rg;
     skip_percentage := skip_percentage;
     verdict := classify skip_percentage |}.

Definition simulate (l : list stat) : option simulation :=
  let mid_idx := Z.to_nat (Z.of_nat (List.length l) / 2) in
  match nth_error l mid_idx with
  | Some s => Some (simulate_with (st_min s) l)
  | None => None
  end.

Record report : Type :=
  { listing : list table_line;
    more_row_groups : option Z;
    found : list stat;
    overlap_count : Z;
    tri : option sort_verdict;
    requete : option simulation;
    recommend_sort : bool;
    recommend_statistics : bool }.

Inductive outcome : Type :=
| FichierNonTrouve
| ColonneNonTrouvee (available_cols : list string)
| Erreur (e : exn)
| Analysed (r : report).

(** What the comparisons of the query simulation need of an entry: with
    min and max [None], [stat['min'] <= test_value] raises [TypeError]
    (as does any comparison with a test value that is [None]). *)
Definition comparable (e : entry) : result stat :=
  match e_bounds e with
  | Some (lo, hi) =>
      Ok {| rg := e_rg e; st_min := lo; st_max := hi; st_rows := e_rows e |}
  | None => Raise TypeError
  end.

(** The first [i] with [schema[i].name == column_name]. *)
Fixpoint find_column (column_name : string) (names : list string) (i : nat)
  : option nat :=
  match names with
  | [] => None
  | n :: rest =>
      if String.eqb n column_name then Some i
      else find_column column_name rest (S i)
  end.

(** The analysis of a file whose metadata was read.  The query simulation
    runs over the whole of [stats_list] and compares the bounds of every
    entry with the test value: one entry without bounds ends the analysis
    with [TypeError], after the listing and the sort analysis. *)
Definition analyze_metadata (md : metadata) (column_name : string)
           (max_row_groups : Z) : outcome :=
  match find_column column_name (schema md) 0 with
  | None => ColonneNonTrouvee (schema md)
  | Some col_idx =>
      let num_to_show := Z.min max_row_groups (num_row_groups md) in
      match loop col_idx 0 (firstn (Z.to_nat num_to_show) (row_groups md))
                 initial with
      | Raise e => Erreur e
      | Ok st =>
          match traverse comparable (stats_list st) with
          | Raise e => Erreur e
          | Ok found =>
              Analysed
                {| listing := lines st;
                   more_row_groups :=
                     if num_row_groups md >? max_row_groups
                     then Some (num_row_groups md - max_row_groups) else None;
                   found := found;
                   overlap_count := overlaps st;
                   tri := sort_analysis st;
                   requete := simulate found;
                   recommend_sort := overlaps st >? 0;
                   recommend_statistics :=
                     (List.length (stats_list st) =? 0)%nat |}
          end
      end
  end.

(** [analyze_statistics(file_path, column_name='origin', max_row_groups=10)];
    [target] is what is found at [file_path]. *)
Definition analyze_statistics (target : option fs.file) (column_name : string)
           (max_row_groups : Z) : outcome :=
  match target with
  | None => FichierNonTrouve
  | Some fs.Unreadable => Erreur ArrowInvalid
  | Some (fs.Parquet f) =>
      analyze_metadata (read_metadata f) column_name max_row_groups
  end.

Record run : Type :=
  { exit_status : Z; analysed : list outcome }.

Definition main (argv : list string) (disk : fs.t) : run :=
  match argv with
  | [] | [_] => {| exit_status := 1; analysed := [] |}
  | _ :: file_path :: rest =>
      let column_name := match rest with c :: _ => c | [] => "origin"%string end in
      match disk file_path with
      | Some (fs.Dir entries) =>
          match fs.glob_parquet entries with
          | [] => {| exit_status := 1; analysed := [] |}
          | first :: _ =>
              {| exit_status := 0;
                 analysed := [analyze_statistics (Some (snd first)) column_name 10] |}
          end
      | Some (fs.File f) =>
          {| exit_status := 0;
             analysed := [analyze_statistics (Some f) column_name 10] |}
      | None =>
          {| exit_status := 0;
             analysed := [analyze_statistics None column_name 10] |}
      end
  end.

End analyze_stats.

(** ** scripts/checkParquetMetadata.py *)

Module checkParquetMetadata.

(** The printed report, one constructor per kind of line; byte sizes are
    kept as numbers.  The format version, the file size and the physical
    types are not modelled. *)
Inductive line : Type :=
| FileNotFound
| NumberOfRows (n : Z)
| NumberOfRowGroups (n : Z)
| NumberOfColumns (n : Z)
| SchemaLine (i : Z) (name : string)
| RowGroup0 (rows : Z)
| TotalByteSize (bytes : Z)
| CompressedSize (bytes : Z)
| CompressionRatio (compression_ratio : Q)
| AverageRowGroupSize (avg : Q)
| MinRowGroupSize (n : Z)
| MaxRowGroupSize (n : Z)
| StatisticsDetail (col_name : string) (s : statistics)
| StatisticsPresent (columns_with_stats : list string) (num_columns : Z)
| StatisticsNotFound
| BloomFiltersPresent (columns_with_bloom : list string)
| BloomFiltersNotDetected
| RowGroupsSmall (avg : Q)
| RowGroupsLarge (avg : Q)
| RowGroupsOptimal (avg : Q)
| EnableStatistics
| ConsiderBloomFilters
| ErrorReadingFile (e : exn).

Definition print (l : line) : M (list line) unit := Py.emit l.

(** [sum(xs)], [min(xs)], [max(xs)] on a list of integers. *)
Definition sum (xs : list Z) : Z := fold_left Z.add xs 0.

Definition py_min (xs : list Z) : result Z :=
  match xs with
  | [] => Raise ValueError
  | x :: rest => Ok (fold_left Z.min rest x)
  end.

Definition py_max (xs : list Z) : result Z :=
  match xs with
  | [] => Raise ValueError
  | x :: rest => Ok (fold_left Z.max rest x)
  end.

(** The loop over all row groups, from row group [i] on; it carries
    [total_rows] and [row_group_sizes]. *)
Fixpoint row_group_loop (i : Z) (groups : list row_group_md)
         (total_rows : Z) (row_group_sizes : list Z)
  : M (list line) (Z * list Z) :=
  match groups with
  | [] => Py.ret (total_rows, row_group_sizes)
  | g :: rest =>
      let total_rows := total_rows + num_rows g in
      let row_group_sizes := row_group_sizes ++ [num_rows g] in
      (if i =? 0 then
         print (RowGroup0 (num_rows g)) ;;;
         print (TotalByteSize (total_byte_size g)) ;;;
         compressed <- Py.lift (total_compressed_size g) ;;
         print (CompressedSize compressed) ;;;
         r <- Py.lift (Py.truediv compressed (total_byte_size g)) ;;
         print (CompressionRatio ((1 - r) * 100)%Q)
       else Py.ret tt) ;;;
      row_group_loop (i + 1) rest total_rows row_group_sizes
  end.

Record features : Type :=
  { has_statistics : bool;
    has_bloom_filters : bool;
    columns_with_stats : list string;
    columns_with_bloom : list string }.

(** The loop over the columns of the first row group, from column
    [col_idx] on. *)
Fixpoint column_loop (names : list string) (col_idx : nat)
         (cols : list column_chunk) (acc : features)
  : M (list line) features :=
  match cols with
  | [] => Py.ret acc
  | col :: rest =>
      match nth_error names col_idx with
      | None => Py.raise IndexError
      | Some col_name =>
          acc1 <- match stats col with
                  | Some s =>
                      (if (col_idx =? 0)%nat
                       then print (StatisticsDetail col_name s)
                       else Py.ret tt) ;;;
                      Py.ret {| has_statistics := true;
                                has_bloom_filters := has_bloom_filters acc;
                                columns_with_stats :=
                                  columns_with_stats acc ++ [col_name];
                                columns_with_bloom := columns_with_bloom acc |}
                  | None => Py.ret acc
                  end ;;
          let acc2 :=
            match bloom_filter_offset col with
            | Some _ =>
                {| has_statistics := has_statistics acc1;
                   has_bloom_filters := true;
                   columns_with_stats := columns_with_stats acc1;
                   columns_with_bloom := columns_with_bloom acc1 ++ [col_name] |}
            | None => acc1
            end in
          column_loop names (S col_idx) rest acc2
      end
  end.

(** The [try] block of [check_parquet_file], after [pq.read_metadata]. *)
Definition inspect (md : metadata) : M (list line) bool :=
  print (NumberOfRows (md_num_rows md)) ;;;
  print (NumberOfRowGroups (num_row_groups md)) ;;;
  print (NumberOfColumns (num_columns md)) ;;;
  Py.for_each (combine (Py.range (num_columns md)) (schema md))
              (fun ic => print (SchemaLine (fst ic + 1) (snd ic))) ;;;
  acc <- row_group_loop 0 (row_groups md) 0 [] ;;
  let row_group_sizes := snd acc in
  avg_row_group_size <-
    Py.lift (Py.truediv (sum row_group_sizes)
                        (Z.of_nat (List.length row_group_sizes))) ;;
  print (AverageRowGroupSize avg_row_group_size) ;;;
  smallest <- Py.lift (py_min row_group_sizes) ;;
  print (MinRowGroupSize smallest) ;;;
  largest <- Py.lift (py_max row_group_sizes) ;;
  print (MaxRowGroupSize largest) ;;;
  g <- Py.lift match row_groups md with
               | g :: _ => Ok g
               | [] => Raise IndexError
               end ;;
  f <- column_loop (schema md) 0 (columns g)
         {| has_statistics := false; has_bloom_filters := false;
            columns_with_stats := []; columns_with_bloom := [] |} ;;
  (if has_statistics f
   then print (StatisticsPresent (columns_with_stats f)
                                 (Z.of_nat (List.length (columns g))))
   else print StatisticsNotFound) ;;;
  (if has_bloom_filters f
   then print (BloomFiltersPresent (columns_with_bloom f))
   else print BloomFiltersNotDetected) ;;;
  (if negb (Qle_bool 50000 avg_row_group_size)
   then print (RowGroupsSmall avg_row_group_size)
   else if negb (Qle_bool avg_row_group_size 500000)
        then print (RowGroupsLarge avg_row_group_size)
        else print (RowGroupsOptimal avg_row_group_size)) ;;;
  (if negb (has_statistics f) then print EnableStatistics else Py.ret tt) ;;;
  (if negb (has_bloom_filters f) then print ConsiderBloomFilters else Py.ret tt) ;;;
  Py.ret true.

(** [check_parquet_file(file_path)]: the printed lines and the returned
    boolean; [target] is what is found at [file_path]. *)
Definition check_parquet_file (target : option fs.file) : list line * bool :=
  match target with
  | None => ([FileNotFound], false)
  | Some fs.Unreadable => ([ErrorReadingFile ArrowInvalid], false)
  | Some (fs.Parquet f) =>
      match inspect (read_metadata f) [] with
      | (printed, Ok b) => (printed, b)
      | (printed, Raise e) => (printed ++ [ErrorReadingFile e], false)
      end
  end.

Record run : Type :=
  { exit_status : Z; checked : list (list line * bool) }.

Definition main (argv : list string) (disk : fs.t) : run :=
  match argv with
  | [] | [_] => {| exit_status := 1; checked := [] |}
  | _ :: file_path :: _ =>
      match disk file_path with
      | Some (fs.Dir entries) =>
          match fs.glob_parquet entries with
          | [] => {| exit_status := 1; checked := [] |}
          | first :: _ =>
              {| exit_status := 0;
                 checked := [check_parquet_file (Some (snd first))] |}
          end
      | Some (fs.File f) =>
          {| exit_status := 0; checked := [check_parquet_file (Some f)] |}
      | None =>
          {| exit_status := 0; checked := [check_parquet_file None] |}
      end
  end.

End checkParquetMetadata.

(** ** What a stable ascending sort of a table is

    The contract of [sort_indices], as a check on a returned index vector:
    it lists every row position once, keys ascend, and rows with equal keys
    keep their original order. *)

Module contract.

(** Row [i] has to come before row [j]. *)
Definition before (t : table) (i j : nat) : bool :=
  match nth_error (rows t) i, nth_error (rows t) j with
  | Some a, Some b =>
      Py.le (origin a) (origin b)
      && (negb (Py.le (origin b) (origin a)) || (i <? j)%nat)
  | _, _ => false
  end.

Fixpoint chain {A} (R : A -> A -> bool) (l : list A) : bool :=
  match l with
  | x :: (y :: _) as l' => R x y && chain R l'
  | _ => true
  end.

Definition is_stable_sort (t : table) (indices : list nat) : bool :=
  (List.length indices =? List.length (rows t))%nat
  && forallb (fun i => (i <? List.length (rows t))%nat) indices
  && chain (before t) indices.

(** Ascending keys. *)
Definition key_le {A} (key : A -> scalar) (x y : A) : Prop :=
  Py.le (key x) (key y) = true.

(** On rows tagged with their position: ascending keys, ties by position. *)
Definition pair_before (x y : nat * row) : Prop :=
  Py.le (origin (snd x)) (origin (snd y)) = true
  /\ (Py.le (origin (snd y)) (origin (snd x)) = true -> (fst x < fst y)%nat).

(** The fetch rule in the words of section 4.2 of the spec: a partition
    must be fetched for [v] iff [min <= v <= max], both bounds inclusive,
    under the natural ordering of the column. *)
Definition must_fetch (v : scalar) (s : analyze_stats.stat) : Prop :=
  Py.le (analyze_stats.st_min s) v = true /\ Py.le v (analyze_stats.st_max s) = true.

(** The counts in the words of section 4.2 of the spec: a partition is
    counted as fetched when it must be fetched and as skipped otherwise;
    [counted v l d k] holds when, of the partitions [l], [d] are fetched
    and [k] are skipped. *)
Inductive counted (v : scalar) : list analyze_stats.stat -> Z -> Z -> Prop :=
| counted_nil : counted v [] 0 0
| counted_fetch s l d k :
    must_fetch v s -> counted v l d k -> counted v (s :: l) (d + 1) k
| counted_skip s l d k :
    ~ must_fetch v s -> counted v l d k -> counted v (s :: l) d (k + 1).

(** The statistics of column [col_idx] in a row group, if any. *)
Definition stats_at (col_idx : nat) (g : row_group_md) : option statistics :=
  match nth_error (columns g) col_idx with
  | Some col => stats col
  | None => None
  end.

(** The entries expected in [stats_list] for the row groups [groups],
    numbered from [rg_idx]: one per row group that carries statistics. *)
Fixpoint appended (col_idx : nat) (rg_idx : Z) (groups : list row_group_md)
  : list analyze_stats.entry :=
  match groups with
  | [] => []
  | g :: rest =>
      match stats_at col_idx g with
      | Some s =>
          [{| analyze_stats.e_rg := rg_idx;
              analyze_stats.e_bounds := bounds s;
              analyze_stats.e_rows := num_rows g |}]
      | None => []
      end ++ appended col_idx (rg_idx + 1) rest
  end.

(** The same entries when their bounds are values: one per row group
    whose statistics carry bounds. *)
Fixpoint entries (col_idx : nat) (rg_idx : Z) (groups : list row_group_md)
  : list analyze_stats.stat :=
  match groups with
  | [] => []
  | g :: rest =>
      match stats_at col_idx g with
      | Some {| bounds := Some (lo, hi) |} =>
          [{| analyze_stats.rg := rg_idx;
              analyze_stats.st_min := lo;
              analyze_stats.st_max := hi;
              analyze_stats.st_rows := num_rows g |}]
      | _ => []
      end ++ entries col_idx (rg_idx + 1) rest
  end.

(** The row group a line of the listing is about. *)
Definition line_index (ln : analyze_stats.table_line) : Z :=
  match ln with
  | analyze_stats.StatsLine rg_idx _ _ _ _ => rg_idx
  | analyze_stats.PasDeStats rg_idx _ => rg_idx
  end.

(** The loop over the row groups keeps the overlap count below the
    number of comparisons made so far. *)
Definition overlaps_bounded (st : analyze_stats.loop_state) : Prop :=
  0 <= analyze_stats.overlaps st
  /\ match analyze_stats.prev_max st with
     | None => analyze_stats.overlaps st = 0 /\ analyze_stats.stats_list st = []
     | Some _ =>
         analyze_stats.overlaps st + 1
         <= Z.of_nat (List.length (analyze_stats.stats_list st))
     end.

(** Statistics whose bounds are in order, and two partitions whose key
    ranges are strictly one after the other. *)
Definition bounds_in_order (s : analyze_stats.stat) : Prop :=
  Py.le (analyze_stats.st_min s) (analyze_stats.st_max s) = true.

Definition strictly_before (s1 s2 : analyze_stats.stat) : Prop :=
  Py.le (analyze_stats.st_min s2) (analyze_stats.st_max s1) = false.

(** A computation only appends to the store, and what it appends and
    returns does not depend on what the store held. *)
Definition appends {S A} (m : M (list S) A) : Prop :=
  forall w, m w = (w ++ fst (m []), snd (m [])).

(** A computation leaves the store as it found it. *)
Definition silent {S A} (m : M S A) : Prop :=
  forall w, fst (m w) = w.

(** What one input file adds to the output directory and to the errors of
    a batch, taken on its own. *)
Definition outputs_of (sizes : list row -> Z * Z) (c : Z)
           (pf : string * fs.file) : optimizeParquet.outputs :=
  fst (optimizeParquet.optimize_parquet_file sizes pf c []).

Definition errors_of (sizes : list row -> Z * Z) (c : Z)
           (pf : string * fs.file) : list exn :=
  match snd (optimizeParquet.optimize_parquet_file sizes pf c []) with
  | Ok _ => []
  | Raise e => [e]
  end.

(** What is found under [name] in an output directory that holds the
    files written in [outs] and nothing else: the last file written under
    that name. *)
Definition found_at (name : string) (outs : optimizeParquet.outputs)
  : option fs.file :=
  match find (fun o => String.eqb (fst o) name) (rev outs) with
  | Some o => Some (fs.Parquet (snd o))
  | None => None
  end.

End contract.

(** ** Sample inputs *)

Module samples.

Definition no_sizes : list row -> Z * Z := fun _ => (0, 0).

Definition text_row (s : string) (v : Z) : row :=
  {| origin := SStr s; others := [SInt v] |}.

(** A file holding [rs] in one row group (its metadata plays no role for
    the optimizer, which reads the rows). *)
Definition file_of (cols : list string) (rs : list row) : parquet :=
  {| pq_other_columns := cols;
     pq_row_groups :=
       [{| rg_rows := rs;
           rg_md := {| num_rows := Z.of_nat (List.length rs);
                       total_byte_size := 1;
                       columns := [] |} |}] |}.

(** The three rows of the end-to-end scenario of the spec. *)
Definition bac : parquet :=
  file_of ["v"%string] [text_row "b" 1; text_row "a" 2; text_row "c" 3].

(** Five rows, two of them with the same key. *)
Definition five : parquet :=
  file_of ["v"%string]
          [text_row "d" 1; text_row "b" 2; text_row "e" 3; text_row "b" 4;
           text_row "a" 5].

(** Metadata of a row group with one column. *)
Definition group_md (n : Z) (s : option statistics) : row_group_md :=
  {| num_rows := n; total_byte_size := 1000;
     columns := [{| stats := s; bloom_filter_offset := None |}] |}.

Definition text_stats (lo hi : string) : option statistics :=
  Some {| bounds := Some (SStr lo, SStr hi) |}.

Definition int_stats (lo hi : Z) : option statistics :=
  Some {| bounds := Some (SInt lo, SInt hi) |}.

(** Statistics of a chunk whose values are all null. *)
Definition null_stats : option statistics := Some {| bounds := None |}.

(** Two sorted text partitions. *)
Definition two_sorted : metadata :=
  {| schema := ["origin"%string]; md_num_rows := 4;
     row_groups := [group_md 2 (text_stats "a" "b"); group_md 2 (text_stats "c" "d")] |}.

(** The same, preceded by a partition without statistics. *)
Definition one_without_statistics : metadata :=
  {| schema := ["origin"%string]; md_num_rows := 6;
     row_groups := [group_md 2 None; group_md 2 (text_stats "a" "b");
                    group_md 2 (text_stats "c" "d")] |}.

(** A partition whose keys are all null, before a partition of text
    keys. *)
Definition null_then_text : metadata :=
  {| schema := ["origin"%string]; md_num_rows := 4;
     row_groups := [group_md 2 null_stats; group_md 2 (text_stats "a" "b")] |}.

(** Two sorted integer partitions: keys 9, then keys 10. *)
Definition nine_then_ten : metadata :=
  {| schema := ["origin"%string]; md_num_rows := 2;
     row_groups := [group_md 1 (int_stats 9 9); group_md 1 (int_stats 10 10)] |}.

(** Statistics entries of three text partitions, one after the other. *)
Definition three_sorted_stats : list analyze_stats.stat :=
  [{| analyze_stats.rg := 0; analyze_stats.st_min := SStr "a";
      analyze_stats.st_max := SStr "b"; analyze_stats.st_rows := 2 |};
   {| analyze_stats.rg := 1; analyze_stats.st_min := SStr "c";
      analyze_stats.st_max := SStr "d"; analyze_stats.st_rows := 2 |};
   {| analyze_stats.rg := 2; analyze_stats.st_min := SStr "e";
      analyze_stats.st_max := SStr "f"; analyze_stats.st_rows := 2 |}].

(** A text of 16 characters of two bytes each (e with an acute accent,
    bytes 195 and 169). *)
Definition sixteen_accents : string :=
  let e := String (ascii_of_nat 195) (String (ascii_of_nat 169) EmptyString) in
  let four := (e ++ e ++ e ++ e)%string in
  (four ++ four ++ four ++ four)%string.

(** A file with no rows and no row groups. *)
Definition empty_file : parquet :=
  {| pq_other_columns := ["v"%string]; pq_row_groups := [] |}.

(** A disk whose directory [in] exists and is empty. *)
Definition empty_dir_disk : fs.t :=
  fun path => if String.eqb path "in" then Some (fs.Dir []) else None.

(** A disk whose directory [in] holds a readable Parquet file, a file
    with the right suffix that is not readable, and a text file. *)
Definition mixed_dir_disk : fs.t :=
  fun path =>
    if String.eqb path "in"
    then Some (fs.Dir [("b.parquet"%string, fs.Parquet bac);
                       ("a.parquet"%string, fs.Unreadable);
                       ("notes.txt"%string, fs.Unreadable)])
    else None.

Definition optimizer_args : optimizeParquet.args :=
  {| optimizeParquet.input_dir := "in";
     optimizeParquet.output_dir := "out";
     optimizeParquet.max_rows := 10000000 |}.

End samples.

Import contract.

(** * Properties *)

(** ** The natural ordering *)

Lemma string_leb_refl (a : string) : String.leb a a = true.
Proof.
  destruct (String.leb_total a a); assumption.
Qed.

Lemma string_leb_trans (a b c : string) :
  String.leb a b = true -> String.leb b c = true -> String.leb a c = true.
Proof.
  unfold String.leb.
  destruct (String.compare a b) eqn:Hab; try discriminate;
    destruct (String.compare b c) eqn:Hbc; try discriminate; intros _ _.
  - apply String.compare_eq_iff in Hab; subst. now rewrite Hbc.
  - apply String.compare_eq_iff in Hab; subst. now rewrite Hbc.
  - apply String.compare_eq_iff in Hbc; subst. now rewrite Hab.
  - apply String_as_OT.cmp_lt in Hab, Hbc.
    assert (H : String_as_OT.cmp a c = Lt)
      by (apply String_as_OT.cmp_lt; eapply String_as_OT.lt_trans; eauto).
    unfold String_as_OT.cmp in H. now rewrite H.
Qed.

Lemma string_ltb_leb (a b : string) :
  String.leb a b = true -> String.ltb b a = false.
Proof.
  unfold String.leb, String.ltb. rewrite (String.compare_antisym b a).
  destruct (String.compare a b); simpl; congruence.
Qed.

Lemma le_refl (a : scalar) : Py.le a a = true.
Proof.
  destruct a; simpl; [apply string_leb_refl | apply Z.leb_refl].
Qed.

Lemma le_total (a b : scalar) : Py.le a b = true \/ Py.le b a = true.
Proof.
  destruct a, b; simpl; auto using String.leb_total.
  destruct (Z.leb_spec z z0); [left | right; apply Z.leb_le]; auto; lia.
Qed.

Lemma le_trans (a b c : scalar) :
  Py.le a b = true -> Py.le b c = true -> Py.le a c = true.
Proof.
  destruct a, b, c; simpl; try congruence; eauto using string_leb_trans.
  rewrite !Z.leb_le; lia.
Qed.

Lemma le_antisym (a b : scalar) :
  Py.le a b = true -> Py.le b a = true -> a = b.
Proof.
  destruct a, b; simpl; try congruence.
  - intros H1 H2. f_equal. now apply String.leb_antisym.
  - rewrite !Z.leb_le; intros; f_equal; lia.
Qed.

(** ** Stable insertion sort *)

Section Sorting.

Context {A : Type} (key : A -> scalar).

Lemma insert_by_perm (x : A) (l : list A) :
  Permutation (insert_by key x l) (x :: l).
Proof.
  induction l as [|y l IH]; simpl; auto.
  destruct (Py.le (key x) (key y)); auto.
  rewrite IH. apply perm_swap.
Qed.

Lemma stable_sort_by_perm (l : list A) : Permutation (stable_sort_by key l) l.
Proof.
  induction l as [|x l IH]; simpl; auto.
  rewrite insert_by_perm. now constructor.
Qed.

Lemma stable_sort_by_in (l : list A) (x : A) :
  In x (stable_sort_by key l) <-> In x l.
Proof.
  split; apply Permutation_in;
    [|apply Permutation_sym]; apply stable_sort_by_perm.
Qed.

Lemma stable_sort_by_length (l : list A) :
  List.length (stable_sort_by key l) = List.length l.
Proof.
  apply Permutation_length, stable_sort_by_perm.
Qed.

Lemma insert_by_sorted (x : A) (l : list A) :
  StronglySorted (key_le key) l -> StronglySorted (key_le key) (insert_by key x l).
Proof.
  induction 1 as [|y l Hs IH Hy]; simpl.
  - repeat constructor.
  - destruct (Py.le (key x) (key y)) eqn:E.
    + constructor; [now constructor|].
      constructor; [exact E|].
      rewrite Forall_forall in *. intros z Hz.
      eapply le_trans; [exact E | now apply Hy].
    + constructor; [exact IH|].
      rewrite Forall_forall in *. intros z Hz.
      apply (Permutation_in _ (insert_by_perm x l)) in Hz.
      destruct Hz as [<-|Hz]; [|now apply Hy].
      unfold key_le. destruct (le_total (key y) (key x)); congruence.
Qed.

Lemma stable_sort_by_sorted (l : list A) :
  StronglySorted (key_le key) (stable_sort_by key l).
Proof.
  induction l; simpl; [constructor | now apply insert_by_sorted].
Qed.

End Sorting.

Lemma map_insert_by {A B} (f : A -> B) (key : B -> scalar) (x : A) (l : list A) :
  map f (insert_by (fun a => key (f a)) x l) = insert_by key (f x) (map f l).
Proof.
  induction l as [|y l IH]; simpl; auto.
  destruct (Py.le (key (f x)) (key (f y))); simpl; congruence.
Qed.

Lemma map_stable_sort_by {A B} (f : A -> B) (key : B -> scalar) (l : list A) :
  map f (stable_sort_by (fun a => key (f a)) l) = stable_sort_by key (map f l).
Proof.
  induction l as [|x l IH]; simpl; auto.
  now rewrite map_insert_by, IH.
Qed.

(** ** [sort_indices] and [take] *)

Lemma insert_pair_sorted (x : nat * row) (s : list (nat * row)) :
  StronglySorted pair_before s ->
  (forall y, In y s -> (fst x < fst y)%nat) ->
  StronglySorted pair_before (insert_by (fun ir => origin (snd ir)) x s).
Proof.
  induction 1 as [|y s Hs IH Hy]; simpl; intros Hx.
  - repeat constructor.
  - rewrite Forall_forall in Hy.
    destruct (Py.le (origin (snd x)) (origin (snd y))) eqn:E.
    + constructor; [constructor; [assumption | now apply Forall_forall]|].
      apply Forall_forall. intros z Hz. split.
      * destruct Hz as [<-|Hz]; [exact E|].
        eapply le_trans; [exact E | apply (Hy z Hz)].
      * intros _. apply Hx. exact Hz.
    + constructor.
      * apply IH. intros z Hz. apply Hx. now right.
      * apply Forall_forall. intros z Hz.
        apply (Permutation_in _ (insert_by_perm _ x s)) in Hz.
        destruct Hz as [<-|Hz]; [|now apply Hy].
        split; [|congruence].
        destruct (le_total (origin (snd y)) (origin (snd x))); congruence.
Qed.

Lemma sort_pairs_sorted (l : list (nat * row)) :
  StronglySorted (fun x y => (fst x < fst y)%nat) l ->
  StronglySorted pair_before (stable_sort_by (fun ir => origin (snd ir)) l).
Proof.
  induction 1 as [|x l Hs IH Hx]; simpl; [constructor|].
  apply insert_pair_sorted; [exact IH|].
  intros y Hy. apply stable_sort_by_in in Hy.
  rewrite Forall_forall in Hx. now apply Hx.
Qed.

Lemma combine_seq_in {A} (l : list A) (a i : nat) (r : A) :
  In (i, r) (combine (seq a (List.length l)) l) ->
  (a <= i)%nat /\ nth_error l (i - a) = Some r.
Proof.
  revert a. induction l as [|x l IH]; simpl; intros a H; [contradiction|].
  destruct H as [H|H].
  - inversion H; subst. rewrite Nat.sub_diag. auto.
  - apply IH in H as [H1 H2]. split; [lia|].
    replace (i - a)%nat with (S (i - S a)) by lia. exact H2.
Qed.

Lemma combine_seq_sorted {A} (l : list A) (a : nat) :
  StronglySorted (fun x y : nat * A => (fst x < fst y)%nat)
                 (combine (seq a (List.length l)) l).
Proof.
  revert a. induction l as [|x l IH]; simpl; intros a; constructor; auto.
  apply Forall_forall. intros [i r] H. apply combine_seq_in in H. simpl. lia.
Qed.

Lemma map_snd_combine_seq {A} (l : list A) (a : nat) :
  map snd (combine (seq a (List.length l)) l) = l.
Proof.
  revert a. induction l; simpl; intros; f_equal; auto.
Qed.

Lemma traverse_pairs {A B C} (F : A -> result B) (sp : list (A * C)) (g : A * C -> B) :
  (forall p, In p sp -> F (fst p) = Ok (g p)) ->
  traverse F (map fst sp) = Ok (map g sp).
Proof.
  induction sp as [|p sp IH]; simpl; intros H; auto.
  rewrite (H p) by auto. rewrite IH by auto. reflexivity.
Qed.

(** Gathering the rows along [sort_indices] never fails and gives the
    stably sorted rows. *)
Lemma take_sort_indices (t : table) :
  take t (sort_indices t)
  = Ok {| other_columns := other_columns t;
          rows := stable_sort_by origin (rows t) |}.
Proof.
  unfold take, sort_indices.
  rewrite (traverse_pairs _ _ snd).
  - rewrite (map_stable_sort_by snd origin), map_snd_combine_seq. reflexivity.
  - intros [i r] H. apply stable_sort_by_in, combine_seq_in in H.
    destruct H as [_ H]. rewrite Nat.sub_0_r in H. simpl. now rewrite H.
Qed.

(** ** The contract of the sort determines its result *)

Lemma before_irrefl (t : table) (i : nat) : before t i i = false.
Proof.
  unfold before. destruct (nth_error (rows t) i); auto.
  rewrite le_refl, Nat.ltb_irrefl. reflexivity.
Qed.

Lemma before_trans (t : table) (i j k : nat) :
  before t i j = true -> before t j k = true -> before t i k = true.
Proof.
  unfold before.
  destruct (nth_error (rows t) i) as [a|], (nth_error (rows t) j) as [b|],
    (nth_error (rows t) k) as [c|]; try discriminate.
  rewrite !andb_true_iff, !orb_true_iff, !negb_true_iff, !Nat.ltb_lt.
  intros [Hab Hij] [Hbc Hjk]. split; [eauto using le_trans|].
  destruct (Py.le (origin c) (origin a)) eqn:Hca; [right | now left].
  assert (Hba : Py.le (origin b) (origin a) = true) by eauto using le_trans.
  assert (Hcb : Py.le (origin c) (origin b) = true) by eauto using le_trans.
  destruct Hij; [congruence|]. destruct Hjk; [congruence|]. lia.
Qed.

Lemma before_in_range (t : table) (i j : nat) :
  before t i j = true ->
  (i < List.length (rows t))%nat /\ (j < List.length (rows t))%nat.
Proof.
  unfold before.
  destruct (nth_error (rows t) i) eqn:Hi; [|discriminate].
  destruct (nth_error (rows t) j) eqn:Hj; [|discriminate].
  intros _. split; apply nth_error_Some; congruence.
Qed.

Lemma chain_sorted {A} (R : A -> A -> bool) (l : list A) :
  chain R l = true <-> Sorted (fun x y => R x y = true) l.
Proof.
  induction l as [|x [|y l] IH].
  - split; auto.
  - split; auto.
  - change (chain R (x :: y :: l)) with (R x y && chain R (y :: l)).
    rewrite andb_true_iff, IH. split.
    + intros [H1 H2]. auto.
    + intros H. inversion H as [|? ? H1 H2]; subst. inversion H2; subst. auto.
Qed.

Lemma strict_sorted_unique {A} (R : A -> A -> Prop) :
  (forall x, ~ R x x) -> (forall x y, R x y -> R y x -> False) ->
  forall l1 l2 : list A,
    StronglySorted R l1 -> StronglySorted R l2 ->
    (forall x, In x l1 <-> In x l2) -> l1 = l2.
Proof.
  intros Hirr Hasym. induction l1 as [|x l1 IH]; intros [|y l2] H1 H2 Hin.
  - reflexivity.
  - exfalso. apply (Hin y). now left.
  - exfalso. apply (Hin x). now left.
  - inversion H1 as [|? ? Hs1 Hx]; subst. inversion H2 as [|? ? Hs2 Hy]; subst.
    rewrite Forall_forall in Hx, Hy.
    assert (x = y) as ->.
    { destruct (proj1 (Hin x) (or_introl eq_refl)) as [E|E]; [auto|].
      destruct (proj2 (Hin y) (or_introl eq_refl)) as [E'|E']; [auto|].
      exfalso. eapply Hasym; [apply Hx, E' | apply Hy, E]. }
    f_equal. apply IH; auto. intros z. split; intros Hz.
    + destruct (proj1 (Hin z) (or_intror Hz)) as [E|E]; [|exact E].
      subst. exfalso. apply (Hirr z). now apply Hx.
    + destruct (proj2 (Hin z) (or_intror Hz)) as [E|E]; [|exact E].
      subst. exfalso. apply (Hirr z). now apply Hy.
Qed.

Lemma strict_sorted_nodup {A} (R : A -> A -> Prop) (l : list A) :
  (forall x, ~ R x x) -> StronglySorted R l -> NoDup l.
Proof.
  intros Hirr. induction 1 as [|x l Hs IH Hx]; constructor; auto.
  intros Hin. rewrite Forall_forall in Hx. apply (Hirr x). now apply Hx.
Qed.

Lemma is_stable_sort_spec (t : table) (indices : list nat) :
  is_stable_sort t indices = true ->
  StronglySorted (fun i j => before t i j = true) indices
  /\ (forall i, In i indices <-> In i (seq 0 (List.length (rows t)))).
Proof.
  unfold is_stable_sort. rewrite !andb_true_iff, Nat.eqb_eq, forallb_forall.
  intros [[Hlen Hrange] Hchain].
  assert (Hs : StronglySorted (fun i j => before t i j = true) indices).
  { apply Sorted_StronglySorted; [|now apply chain_sorted].
    intros i j k. apply before_trans. }
  split; [exact Hs|].
  assert (Hincl : incl indices (seq 0 (List.length (rows t)))).
  { intros i Hi. apply in_seq. apply Hrange in Hi. apply Nat.ltb_lt in Hi. lia. }
  intros i. split; [apply Hincl|].
  apply NoDup_length_incl; auto.
  - eapply strict_sorted_nodup; [|exact Hs].
    intros x Hx. simpl in Hx. rewrite before_irrefl in Hx. discriminate.
  - rewrite length_seq. lia.
Qed.

(** Any two index vectors that meet the contract are equal. *)
Lemma is_stable_sort_unique (t : table) (i1 i2 : list nat) :
  is_stable_sort t i1 = true -> is_stable_sort t i2 = true -> i1 = i2.
Proof.
  intros H1 H2.
  apply is_stable_sort_spec in H1 as [S1 E1], H2 as [S2 E2].
  apply (strict_sorted_unique (fun i j => before t i j = true)); auto.
  - intros x Hx. simpl in Hx. rewrite before_irrefl in Hx. discriminate.
  - intros x y Hxy Hyx. simpl in Hxy, Hyx. pose proof (before_trans _ _ _ _ Hxy Hyx) as H.
    rewrite before_irrefl in H. discriminate.
  - intros x. now rewrite E1, E2.
Qed.

(** [sort_indices] meets the contract. *)
Lemma sort_indices_stable (t : table) :
  is_stable_sort t (sort_indices t) = true.
Proof.
  unfold is_stable_sort, sort_indices.
  set (ps := combine (seq 0 (List.length (rows t))) (rows t)).
  set (sp := stable_sort_by (fun ir => origin (snd ir)) ps).
  assert (Hin : forall p, In p sp ->
            nth_error (rows t) (fst p) = Some (snd p)).
  { intros [i r] H. apply stable_sort_by_in, combine_seq_in in H.
    simpl. rewrite Nat.sub_0_r in H. tauto. }
  rewrite !andb_true_iff. repeat split.
  - rewrite length_map. unfold sp. rewrite stable_sort_by_length.
    unfold ps. rewrite length_combine, length_seq, Nat.min_id.
    apply Nat.eqb_refl.
  - apply forallb_forall. intros i Hi. apply in_map_iff in Hi as [p [<- Hp]].
    apply Nat.ltb_lt, nth_error_Some. rewrite (Hin p Hp). discriminate.
  - apply chain_sorted.
    assert (Hs : StronglySorted pair_before sp)
      by apply sort_pairs_sorted, combine_seq_sorted.
    clearbody sp. clear ps.
    induction Hs as [|p sp Hs IH Hp]; simpl; [constructor|].
    constructor; [apply IH; intros; apply Hin; now right|].
    destruct sp as [|q sp]; simpl; constructor.
    rewrite Forall_forall in Hp. destruct (Hp q (or_introl eq_refl)) as [Hle Hlt].
    unfold before. rewrite (Hin p), (Hin q) by (simpl; auto).
    rewrite Hle. simpl.
    destruct (Py.le (origin (snd q)) (origin (snd p))); simpl; auto.
    apply Nat.ltb_lt; auto.
Qed.

(** ** The optimizer on one file *)

Lemma for_each_emit {S A} (xs : list A) (body : A -> M (list S) unit) (g : A -> S) :
  (forall x, In x xs -> forall w, body x w = (w ++ [g x], Ok tt)) ->
  forall w, Py.for_each xs body w = (w ++ map g xs, Ok tt).
Proof.
  induction xs as [|x xs IH]; simpl; intros H w.
  - unfold Py.ret. now rewrite app_nil_r.
  - unfold Py.bind. rewrite (H x) by auto. rewrite IH by auto.
    now rewrite <- app_assoc.
Qed.

Lemma range_pos (k : Z) : 0 < k -> exists rest, Py.range k = 0 :: rest.
Proof.
  intros Hk. unfold Py.range.
  destruct (Z.to_nat k) as [|m] eqn:E; [lia|].
  simpl. eexists. reflexivity.
Qed.

Lemma ceil_bounds (n c : Z) :
  0 < c -> 0 <= n ->
  let k := (n + c - 1) / c in
  0 <= k /\ (k - 1) * c < n <= k * c.
Proof.
  intros Hc Hn k.
  pose proof (Z.div_mod (n + c - 1) c ltac:(lia)) as H.
  pose proof (Z.mod_pos_bound (n + c - 1) c Hc) as H'.
  fold k in H. split; [|nia].
  apply Z.div_pos; lia.
Qed.

Section OptimizerFacts.

Variable sizes : list row -> Z * Z.

(** The write hands [pq.write_table] two keywords it does not accept: the
    call raises before a file is written. *)
Lemma write_raises (t : table) (output_file : string)
      (w : optimizeParquet.outputs) :
  optimizeParquet.write_optimized_parquet sizes t output_file w
  = (w, Raise TypeError).
Proof.
  reflexivity.
Qed.

(** The single-file branch ends in the failing write. *)
Lemma optimize_sorted_single (base_name : string) (t : table) (c : Z)
      (w : optimizeParquet.outputs) :
  num_rows_of t <= c ->
  optimizeParquet.optimize_sorted sizes base_name t (sort_indices t) c w
  = (w, Raise TypeError).
Proof.
  intros Hn. unfold optimizeParquet.optimize_sorted.
  rewrite take_sort_indices. unfold Py.bind at 1, Py.lift at 1.
  replace (num_rows_of t >? c) with false
    by (rewrite Z.gtb_ltb; symmetry; apply Z.ltb_ge; lia).
  apply write_raises.
Qed.

(** The split branch stops at the write of chunk 0. *)
Lemma optimize_sorted_split (base_name : string) (t : table) (c : Z)
      (w : optimizeParquet.outputs) :
  0 < c -> c < num_rows_of t ->
  optimizeParquet.optimize_sorted sizes base_name t (sort_indices t) c w
  = (w, Raise TypeError).
Proof.
  intros Hc Hn. unfold optimizeParquet.optimize_sorted.
  rewrite take_sort_indices. unfold Py.bind at 1, Py.lift at 1.
  replace (num_rows_of t >? c) with true by (symmetry; apply Z.gtb_lt; lia).
  unfold Py.floordiv.
  replace (c =? 0) with false by (symmetry; apply Z.eqb_neq; lia).
  unfold Py.bind at 1, Py.lift at 1.
  destruct (ceil_bounds (num_rows_of t) c Hc ltac:(lia)) as [_ Hk].
  destruct (range_pos ((num_rows_of t + c - 1) / c) ltac:(nia)) as [rest ->].
  reflexivity.
Qed.

(** A row cap of zero makes the chunk count divide by zero: nothing is
    written and the exception reaches the caller. *)
Lemma optimize_sorted_zero_cap (base_name : string) (t : table)
      (w : optimizeParquet.outputs) :
  0 < num_rows_of t ->
  optimizeParquet.optimize_sorted sizes base_name t (sort_indices t) 0 w
  = (w, Raise ZeroDivisionError).
Proof.
  intros Hn. unfold optimizeParquet.optimize_sorted.
  rewrite take_sort_indices. unfold Py.bind at 1, Py.lift at 1.
  replace (num_rows_of t >? 0) with true by (symmetry; apply Z.gtb_lt; lia).
  reflexivity.
Qed.

End OptimizerFacts.

(** ** A table that fits in one file *)

(** C1: on a table whose row count does not exceed the row cap,
    [optimize_parquet_file] sorts the rows (ascending keys, a permutation
    of the input) and goes to the single-file branch, where the write
    raises [TypeError]: the run ends with the exception and without a
    file, and the pruning simulator, sent to the place of the output in a
    fresh output directory, finds no file in which to count overlaps. *)
Theorem single_file_write_raises
        (sizes : list row -> Z * Z) (name : string) (f : parquet) (c : Z)
        (w : optimizeParquet.outputs) :
  num_rows_of (read_table f) <= c ->
  let sorted := stable_sort_by origin (rows (read_table f)) in
  take (read_table f) (sort_indices (read_table f))
  = Ok {| other_columns := other_columns (read_table f); rows := sorted |}
  /\ StronglySorted (key_le origin) sorted
  /\ Permutation sorted (rows (read_table f))
  /\ optimizeParquet.optimize_parquet_file sizes (name, fs.Parquet f) c w
     = (w, Raise TypeError)
  /\ outputs_of sizes c (name, fs.Parquet f) = []
  /\ analyze_stats.analyze_statistics
       (found_at (fs.stem name ++ ".parquet")
                 (outputs_of sizes c (name, fs.Parquet f)))
       "origin" 10
     = analyze_stats.FichierNonTrouve.
Proof.
  intros Hn sorted.
  assert (H : forall w',
             optimizeParquet.optimize_parquet_file sizes (name, fs.Parquet f) c w'
             = (w', Raise TypeError)).
  { intros w'. unfold optimizeParquet.optimize_parquet_file.
    cbv beta iota delta [fst snd]. now apply optimize_sorted_single. }
  split; [apply take_sort_indices|].
  split; [apply stable_sort_by_sorted|].
  split; [apply stable_sort_by_perm|].
  split; [apply H|]. unfold outputs_of. rewrite H. split; reflexivity.
Qed.

Lemma single_file_write_raises_witness :
  num_rows_of (read_table samples.bac) <= 10000000
  /\ optimizeParquet.optimize_parquet_file
       samples.no_sizes ("bac.parquet"%string, fs.Parquet samples.bac)
       10000000 []
     = ([], Raise TypeError).
Proof.
  assert (H : num_rows_of (read_table samples.bac) <= 10000000)
    by (vm_compute; discriminate).
  split; [exact H|].
  exact (proj1 (proj2 (proj2 (proj2
           (single_file_write_raises
              samples.no_sizes "bac.parquet" samples.bac 10000000 [] H))))).
Defined.

(** ** A table that is split *)

(** C6: with a row cap [c] and more than [c] rows the run ends with
    [TypeError] at the first write: it writes no chunk, so the rows of
    the chunks written, put end to end, are no rows at all, where the
    sorted input has as many rows as the input. *)
Theorem split_writes_no_chunk
        (sizes : list row -> Z * Z) (name : string) (f : parquet) (c : Z)
        (w : optimizeParquet.outputs) :
  0 < c -> c < num_rows_of (read_table f) ->
  optimizeParquet.optimize_parquet_file sizes (name, fs.Parquet f) c w
  = (w, Raise TypeError)
  /\ concat (map (fun o => rows (read_table (snd o)))
                 (outputs_of sizes c (name, fs.Parquet f)))
     = []
  /\ concat (map (fun o => rows (read_table (snd o)))
                 (outputs_of sizes c (name, fs.Parquet f)))
     <> stable_sort_by origin (rows (read_table f))
  /\ Z.of_nat (List.length (stable_sort_by origin (rows (read_table f))))
     = num_rows_of (read_table f).
Proof.
  intros Hc Hn.
  assert (H : forall w',
             optimizeParquet.optimize_parquet_file sizes (name, fs.Parquet f) c w'
             = (w', Raise TypeError)).
  { intros w'. unfold optimizeParquet.optimize_parquet_file.
    cbv beta iota delta [fst snd]. now apply optimize_sorted_split. }
  assert (Hlen : Z.of_nat (List.length (stable_sort_by origin (rows (read_table f))))
                 = num_rows_of (read_table f))
    by (now rewrite stable_sort_by_length).
  split; [apply H|]. unfold outputs_of. rewrite H.
  split; [reflexivity|]. split; [|exact Hlen].
  cbn [fst map concat]. intros E. rewrite <- E in Hlen.
  change (List.length (@nil row)) with 0%nat in Hlen. lia.
Qed.

Lemma split_writes_no_chunk_witness :
  0 < 2
  /\ 2 < num_rows_of (read_table samples.five)
  /\ optimizeParquet.optimize_parquet_file
       samples.no_sizes ("5.parquet"%string, fs.Parquet samples.five) 2 []
     = ([], Raise TypeError).
Proof.
  assert (H1 : 0 < 2) by lia.
  assert (H2 : 2 < num_rows_of (read_table samples.five))
    by (vm_compute; reflexivity).
  split; [exact H1|]. split; [exact H2|].
  exact (proj1 (split_writes_no_chunk
                  samples.no_sizes "5.parquet" samples.five 2 [] H1 H2)).
Defined.

(** C10: with a row cap [c] and [n > c] rows the loop is set up for
    [(n + c - 1) // c] chunks, the least [k] with [n <= k * c] and at
    least 2; chunk 0 is cut as the first [c] rows of the sorted table;
    its write raises [TypeError], which ends the loop and the run: of the
    chunks planned none is written. *)
Theorem split_aborts_at_first_chunk
        (sizes : list row -> Z * Z) (name : string) (f : parquet) (c : Z)
        (w : optimizeParquet.outputs) :
  0 < c -> c < num_rows_of (read_table f) ->
  let n := num_rows_of (read_table f) in
  let sorted :=
    {| other_columns := other_columns (read_table f);
       rows := stable_sort_by origin (rows (read_table f)) |} in
  exists num_chunks chunk,
    Py.floordiv (n + c - 1) c = Ok num_chunks
    /\ 2 <= num_chunks
    /\ (num_chunks - 1) * c < n <= num_chunks * c
    /\ take (read_table f) (sort_indices (read_table f)) = Ok sorted
    /\ slice sorted (0 * c) (Z.min ((0 + 1) * c) n - 0 * c) = Ok chunk
    /\ rows chunk = firstn (Z.to_nat c) (rows sorted)
    /\ optimizeParquet.write_optimized_parquet
         sizes chunk (fs.stem name ++ "_" ++ Py.str (SInt 0) ++ ".parquet") w
       = (w, Raise TypeError)
    /\ optimizeParquet.optimize_parquet_file sizes (name, fs.Parquet f) c w
       = (w, Raise TypeError)
    /\ List.length (outputs_of sizes c (name, fs.Parquet f)) = 0%nat.
Proof.
  intros Hc Hn n sorted.
  assert (H : forall w',
             optimizeParquet.optimize_parquet_file sizes (name, fs.Parquet f) c w'
             = (w', Raise TypeError)).
  { intros w'. unfold optimizeParquet.optimize_parquet_file.
    cbv beta iota delta [fst snd]. now apply optimize_sorted_split. }
  destruct (ceil_bounds n c Hc ltac:(unfold n; lia)) as [Hk0 Hk].
  exists ((n + c - 1) / c), {| other_columns := other_columns (read_table f);
                               rows := firstn (Z.to_nat c) (rows sorted) |}.
  split.
  { unfold Py.floordiv.
    now replace (c =? 0) with false by (symmetry; apply Z.eqb_neq; lia). }
  split; [fold n in Hn; nia|]. split; [exact Hk|].
  split; [apply take_sort_indices|].
  split.
  { unfold slice. replace (0 * c <? 0) with false by reflexivity.
    replace (Z.min ((0 + 1) * c) n - 0 * c) with c by (fold n in Hn; lia).
    reflexivity. }
  split; [reflexivity|]. split; [apply write_raises|]. split; [apply H|].
  unfold outputs_of. now rewrite H.
Qed.

Lemma split_aborts_at_first_chunk_witness :
  0 < 2
  /\ 2 < num_rows_of (read_table samples.five)
  /\ Py.floordiv (num_rows_of (read_table samples.five) + 2 - 1) 2 = Ok 3
  /\ List.length (outputs_of samples.no_sizes 2
                             ("5.parquet"%string, fs.Parquet samples.five))
     = 0%nat.
Proof.
  assert (H1 : 0 < 2) by lia.
  assert (H2 : 2 < num_rows_of (read_table samples.five))
    by (vm_compute; reflexivity).
  split; [exact H1|]. split; [exact H2|].
  destruct (split_aborts_at_first_chunk
              samples.no_sizes "5.parquet" samples.five 2 [] H1 H2)
    as [num_chunks [chunk [_ [_ [_ [_ [_ [_ [_ [_ Hnone]]]]]]]]]].
  split; [vm_compute; reflexivity | exact Hnone].
Defined.

(** ** Re-running the optimizer *)

(** C5: two runs of the optimizer on the same table with the same row cap
    write the same files with the same row groups and the same rows in
    them, whatever index vector the stable ascending sort returned in each
    run: the contract of the sort fixes the order of the rows, and the
    chunk boundaries depend on the row count and the row cap only.  The
    result is the one computed by [optimize_parquet_file]. *)
Theorem optimizer_rerun_same_rows
        (sizes : list row -> Z * Z) (name : string) (f : parquet) (c : Z)
        (w : optimizeParquet.outputs) (indices1 indices2 : list nat) :
  is_stable_sort (read_table f) indices1 = true ->
  is_stable_sort (read_table f) indices2 = true ->
  let run indices :=
    optimizeParquet.optimize_sorted sizes (fs.stem name) (read_table f) indices c w in
  run indices1 = run indices2
  /\ map (fun o => (fst o, map rg_rows (pq_row_groups (snd o)))) (fst (run indices1))
     = map (fun o => (fst o, map rg_rows (pq_row_groups (snd o)))) (fst (run indices2))
  /\ run indices1
     = optimizeParquet.optimize_parquet_file sizes (name, fs.Parquet f) c w.
Proof.
  intros H1 H2 run.
  pose proof (is_stable_sort_unique _ _ _ H1 H2) as E12.
  pose proof (is_stable_sort_unique _ _ _ H1 (sort_indices_stable (read_table f))) as E1.
  unfold run. rewrite <- E12, E1. repeat split.
Qed.

Lemma optimizer_rerun_same_rows_witness :
  is_stable_sort (read_table samples.five) [4; 1; 3; 0; 2]%nat = true
  /\ optimizeParquet.optimize_sorted
       samples.no_sizes (fs.stem "5.parquet") (read_table samples.five)
       [4; 1; 3; 0; 2]%nat 2 []
     = optimizeParquet.optimize_parquet_file
         samples.no_sizes ("5.parquet"%string, fs.Parquet samples.five) 2 [].
Proof.
  assert (H : is_stable_sort (read_table samples.five) [4; 1; 3; 0; 2]%nat = true)
    by (vm_compute; reflexivity).
  split; [exact H|].
  exact (proj2 (proj2 (optimizer_rerun_same_rows
                         samples.no_sizes "5.parquet" samples.five 2 []
                         [4; 1; 3; 0; 2]%nat [4; 1; 3; 0; 2]%nat H H))).
Defined.

(** ** The pruning simulator: fetch simulation *)

Lemma must_fetch_iff (v : scalar) (s : analyze_stats.stat) :
  must_fetch v s
  <-> Py.le (analyze_stats.st_min s) v && Py.le v (analyze_stats.st_max s) = true.
Proof.
  unfold must_fetch. now rewrite andb_true_iff.
Qed.

Lemma count_query_acc (v : scalar) (l : list analyze_stats.stat) :
  forall d0 k0, exists d k,
    fold_left (analyze_stats.count_step v) l (d0, k0) = (d0 + d, k0 + k)
    /\ counted v l d k.
Proof.
  induction l as [|s l IH]; intros d0 k0; simpl.
  - exists 0, 0. rewrite !Z.add_0_r. split; [reflexivity | constructor].
  - destruct (Py.le (analyze_stats.st_min s) v && Py.le v (analyze_stats.st_max s))
      eqn:E.
    + destruct (IH (d0 + 1) k0) as [d [k [Hf Hc]]].
      exists (d + 1), k. split.
      * rewrite Hf. f_equal. lia.
      * constructor; [now apply must_fetch_iff | exact Hc].
    + destruct (IH d0 (k0 + 1)) as [d [k [Hf Hc]]].
      exists d, (k + 1). split.
      * rewrite Hf. f_equal. lia.
      * constructor; [|exact Hc].
        rewrite must_fetch_iff. congruence.
Qed.

Lemma counted_total (v : scalar) (l : list analyze_stats.stat) (d k : Z) :
  counted v l d k -> d + k = Z.of_nat (List.length l).
Proof.
  induction 1; simpl List.length; lia.
Qed.

Lemma fetch_counts_total (v : scalar) (l : list analyze_stats.stat) :
  analyze_stats.would_download (analyze_stats.simulate_with v l)
  + analyze_stats.would_skip (analyze_stats.simulate_with v l)
  = analyze_stats.total_rg (analyze_stats.simulate_with v l).
Proof.
  unfold analyze_stats.simulate_with, analyze_stats.count_query.
  destruct (count_query_acc v l 0 0) as [d [k [Hf Hc]]].
  rewrite Hf. simpl. now apply counted_total with (v := v).
Qed.

(** C2: in the fetch simulation, for every lookup value [v] and every
    list of partitions with statistics, a partition is counted in
    [would_download] exactly when [min <= v] and [v <= max] in the natural
    ordering of the column (both bounds included), and in [would_skip]
    otherwise; every partition is in one of the two counts. *)
Theorem fetch_simulation_inclusive_bounds
        (v : scalar) (l : list analyze_stats.stat) :
  counted v l (analyze_stats.would_download (analyze_stats.simulate_with v l))
              (analyze_stats.would_skip (analyze_stats.simulate_with v l))
  /\ analyze_stats.would_download (analyze_stats.simulate_with v l)
     + analyze_stats.would_skip (analyze_stats.simulate_with v l)
     = analyze_stats.total_rg (analyze_stats.simulate_with v l)
  /\ forall s d k,
       (must_fetch v s -> analyze_stats.count_step v (d, k) s = (d + 1, k))
       /\ (~ must_fetch v s -> analyze_stats.count_step v (d, k) s = (d, k + 1)).
Proof.
  unfold analyze_stats.simulate_with, analyze_stats.count_query.
  destruct (count_query_acc v l 0 0) as [d [k [Hf Hc]]].
  rewrite Hf. simpl. split; [exact Hc|]. split.
  - now apply counted_total with (v := v).
  - intros s d' k'. unfold analyze_stats.count_step. rewrite must_fetch_iff.
    destruct (Py.le (analyze_stats.st_min s) v && Py.le v (analyze_stats.st_max s));
      split; intros H; congruence.
Qed.

(** ** The pruning simulator: classification *)

Lemma not_Qle_bool (x y : Q) : negb (Qle_bool x y) = true <-> (y < x)%Q.
Proof.
  rewrite negb_true_iff. split.
  - intros H. apply Qnot_le_lt. intros Hle.
    apply Qle_bool_iff in Hle. congruence.
  - intros H. destruct (Qle_bool x y) eqn:E; auto.
    apply Qle_bool_iff in E. exfalso. now apply (Qlt_not_le y x).
Qed.

Lemma not_Qle_bool_false (x y : Q) : negb (Qle_bool x y) = false <-> (x <= y)%Q.
Proof.
  rewrite negb_false_iff. apply Qle_bool_iff.
Qed.

(** C7, as the code has it: a skip percentage above 80 is graded
    [Excellent]; above 50 and up to 80, [Correct]; 50 or below, [Mauvais]. *)
Theorem classification_thresholds (p : Q) :
  (analyze_stats.classify p = analyze_stats.Excellent <-> (80 < p)%Q)
  /\ (analyze_stats.classify p = analyze_stats.Correct <-> (50 < p /\ p <= 80)%Q)
  /\ (analyze_stats.classify p = analyze_stats.Mauvais <-> (p <= 50)%Q).
Proof.
  unfold analyze_stats.classify.
  destruct (negb (Qle_bool p 80)) eqn:E80.
  - apply not_Qle_bool in E80.
    assert (H50 : (50 < p)%Q) by (eapply Qlt_trans; [|exact E80]; reflexivity).
    repeat split; try discriminate; auto.
    + intros [_ H]. exfalso. now apply (Qlt_not_le _ _ E80).
    + intros H. exfalso. now apply (Qlt_not_le _ _ H50).
  - apply not_Qle_bool_false in E80.
    destruct (negb (Qle_bool p 50)) eqn:E50.
    + apply not_Qle_bool in E50.
      repeat split; try discriminate; auto.
      * intros H. exfalso. now apply (Qlt_not_le _ _ H).
      * intros H. exfalso. now apply (Qlt_not_le _ _ E50).
    + apply not_Qle_bool_false in E50.
      repeat split; try discriminate; auto.
      * intros H. exfalso. now apply (Qlt_not_le _ _ H).
      * intros [H _]. exfalso. now apply (Qlt_not_le _ _ H).
Qed.

(** C7 as stated fails at exactly 50%: on two sorted partitions the
    simulator looks up the smallest key of the second one, skips one
    partition of two, and grades the result [Mauvais], not [Correct]. *)
Lemma half_skipped_is_graded_poor :
  exists r sim,
    analyze_stats.analyze_metadata samples.two_sorted "origin" 10
    = analyze_stats.Analysed r
    /\ analyze_stats.requete r = Some sim
    /\ analyze_stats.would_skip sim = 1
    /\ analyze_stats.total_rg sim = 2
    /\ (analyze_stats.skip_percentage sim == 50)%Q
    /\ analyze_stats.verdict sim = analyze_stats.Mauvais
    /\ analyze_stats.verdict sim <> analyze_stats.Correct.
Proof.
  do 2 eexists. split; [vm_compute; reflexivity|].
  split; [reflexivity|]. simpl.
  repeat split; try reflexivity. discriminate.
Qed.

(** ** The pruning simulator: which partitions are analysed *)

Lemma visit_spec (col_idx : nat) (rg_idx : Z) (g : row_group_md)
      (st st' : analyze_stats.loop_state) :
  analyze_stats.visit col_idx rg_idx g st = Ok st' ->
  analyze_stats.stats_list st'
  = analyze_stats.stats_list st
    ++ match stats_at col_idx g with
       | Some s =>
           [{| analyze_stats.e_rg := rg_idx;
               analyze_stats.e_bounds := bounds s;
               analyze_stats.e_rows := num_rows g |}]
       | None => []
       end
  /\ exists ln,
       analyze_stats.lines st' = analyze_stats.lines st ++ [ln]
       /\ (stats_at col_idx g = None
           -> ln = analyze_stats.PasDeStats rg_idx (num_rows g)).
Proof.
  unfold analyze_stats.visit, stats_at.
  destruct (nth_error (columns g) col_idx) as [col|]; [|discriminate].
  destruct (stats col) as [s|].
  - destruct (analyze_stats.prev_max st) as [pm|];
      [destruct (String.ltb (Py.str_of (min s)) pm)|];
      intros H; inversion H; subst; clear H; simpl;
      (split; [reflexivity|]); eexists; (split; [reflexivity|]); discriminate.
  - intros H; inversion H; subst; clear H; simpl. rewrite app_nil_r.
    split; [reflexivity|]. eexists. split; reflexivity.
Qed.

Lemma loop_lines_extend (col_idx : nat) (groups : list row_group_md) :
  forall (rg_idx : Z) (st st' : analyze_stats.loop_state),
    analyze_stats.loop col_idx rg_idx groups st = Ok st' ->
    exists rest, analyze_stats.lines st' = analyze_stats.lines st ++ rest.
Proof.
  induction groups as [|g groups IH]; intros rg_idx st st' H; simpl in H.
  - inversion H. exists []. now rewrite app_nil_r.
  - destruct (analyze_stats.visit col_idx rg_idx g st) as [st1|] eqn:Hv;
      [|discriminate].
    apply visit_spec in Hv as [_ [ln [Hl _]]].
    destruct (IH _ _ _ H) as [rest Hr].
    exists (ln :: rest). rewrite Hr, Hl, <- app_assoc. reflexivity.
Qed.

Lemma loop_spec (col_idx : nat) (groups : list row_group_md) :
  forall (rg_idx : Z) (st st' : analyze_stats.loop_state),
    analyze_stats.loop col_idx rg_idx groups st = Ok st' ->
    analyze_stats.stats_list st'
    = analyze_stats.stats_list st ++ appended col_idx rg_idx groups
    /\ forall j g,
         nth_error groups j = Some g -> stats_at col_idx g = None ->
         nth_error (analyze_stats.lines st') (List.length (analyze_stats.lines st) + j)
         = Some (analyze_stats.PasDeStats (rg_idx + Z.of_nat j) (num_rows g)).
Proof.
  induction groups as [|g groups IH]; intros rg_idx st st' H.
  - simpl in H. inversion H; subst. simpl. rewrite app_nil_r.
    split; [reflexivity|]. intros [|j] g'; discriminate.
  - simpl in H.
    destruct (analyze_stats.visit col_idx rg_idx g st) as [st1|] eqn:Hv;
      [|discriminate].
    apply visit_spec in Hv as [Hs [ln [Hl Hno]]].
    pose proof (loop_lines_extend _ _ _ _ _ H) as Hpre.
    apply IH in H as [Hs' Hl'].
    split.
    + rewrite Hs', Hs. simpl appended. rewrite <- app_assoc. reflexivity.
    + intros [|j] g' Hg Hnone.
      * simpl in Hg. inversion Hg; subst g'.
        assert (Hlen : (List.length (analyze_stats.lines st) + 0
                        < List.length (analyze_stats.lines st1))%nat)
          by (rewrite Hl, length_app; simpl; lia).
        destruct Hpre as [rest Hr].
        rewrite Hr, nth_error_app1 by exact Hlen.
        rewrite Hl, nth_error_app2 by lia.
        replace (List.length (analyze_stats.lines st) + 0
                 - List.length (analyze_stats.lines st))%nat with 0%nat by lia.
        simpl. rewrite Hno by exact Hnone. f_equal. f_equal. lia.
      * simpl in Hg. specialize (Hl' j g' Hg Hnone).
        rewrite Hl, length_app in Hl'. simpl in Hl'.
        replace (List.length (analyze_stats.lines st) + S j)%nat
          with (List.length (analyze_stats.lines st) + 1 + j)%nat by lia.
        rewrite Hl'. f_equal. f_equal. lia.
Qed.

Lemma length_appended (col_idx : nat) (groups : list row_group_md) (rg_idx : Z) :
  List.length (appended col_idx rg_idx groups)
  = List.length (filter (fun g => match stats_at col_idx g with
                                  | Some _ => true
                                  | None => false
                                  end) groups).
Proof.
  revert rg_idx. induction groups as [|g groups IH]; intros rg_idx; simpl; auto.
  destruct (stats_at col_idx g); simpl; now rewrite IH.
Qed.

Lemma traverse_length {A B} (F : A -> result B) (l : list A) (l' : list B) :
  traverse F l = Ok l' -> List.length l' = List.length l.
Proof.
  revert l'. induction l as [|x l IH]; simpl; intros l' H.
  - now inversion H.
  - destruct (F x); [|discriminate].
    destruct (traverse F l); [|discriminate].
    inversion H; subst. simpl. f_equal. now apply IH.
Qed.

(** When every appended entry has bounds, the entries the simulation
    runs over are those of the row groups with statistics. *)
Lemma comparable_appended (col_idx : nat) (groups : list row_group_md) :
  forall (rg_idx : Z) (found : list analyze_stats.stat),
    traverse analyze_stats.comparable (appended col_idx rg_idx groups) = Ok found ->
    found = entries col_idx rg_idx groups.
Proof.
  induction groups as [|g groups IH]; intros rg_idx found; simpl.
  - intros H. now inversion H.
  - destruct (stats_at col_idx g) as [[[[lo hi]|]]|]; simpl.
    + destruct (traverse _ _) as [l|] eqn:E; [|discriminate].
      intros H. inversion H; subst. f_equal. now apply IH.
    + discriminate.
    + apply IH.
Qed.

Lemma simulate_total (l : list analyze_stats.stat) (sim : analyze_stats.simulation) :
  analyze_stats.simulate l = Some sim ->
  analyze_stats.total_rg sim = Z.of_nat (List.length l)
  /\ analyze_stats.would_download sim + analyze_stats.would_skip sim
     = analyze_stats.total_rg sim.
Proof.
  unfold analyze_stats.simulate.
  destruct (nth_error l _) as [s|]; [|discriminate].
  intros H. inversion H; subst; clear H.
  split.
  - unfold analyze_stats.simulate_with.
    destruct (analyze_stats.count_query _ l). reflexivity.
  - apply fetch_counts_total.
Qed.

(** C3, as the code has it: a partition without statistics gets its own
    "PAS DE STATS" line in the listing, and is left out of [stats_list];
    the fetch simulation runs over [stats_list] only, so such a partition
    is in neither [would_download] nor [would_skip], and [total_rg] is the
    number of listed partitions that carry statistics. *)
Theorem missing_statistics_listed_not_counted
        (md : metadata) (column_name : string) (max_row_groups : Z)
        (r : analyze_stats.report) :
  analyze_stats.analyze_metadata md column_name max_row_groups
  = analyze_stats.Analysed r ->
  exists col_idx,
    analyze_stats.find_column column_name (schema md) 0 = Some col_idx
    /\ let shown :=
         firstn (Z.to_nat (Z.min max_row_groups (num_row_groups md)))
                (row_groups md) in
       let with_statistics :=
         filter (fun g => match stats_at col_idx g with
                          | Some _ => true
                          | None => false
                          end) shown in
       (forall j g,
           nth_error shown j = Some g -> stats_at col_idx g = None ->
           nth_error (analyze_stats.listing r) j
           = Some (analyze_stats.PasDeStats (Z.of_nat j) (num_rows g)))
       /\ analyze_stats.found r = entries col_idx 0 shown
       /\ List.length (analyze_stats.found r) = List.length with_statistics
       /\ forall sim,
            analyze_stats.requete r = Some sim ->
            analyze_stats.total_rg sim = Z.of_nat (List.length with_statistics)
            /\ analyze_stats.would_download sim + analyze_stats.would_skip sim
               = analyze_stats.total_rg sim.
Proof.
  unfold analyze_stats.analyze_metadata.
  destruct (analyze_stats.find_column column_name (schema md) 0) as [col_idx|];
    [|discriminate].
  destruct (analyze_stats.loop col_idx 0 _ analyze_stats.initial) as [st|] eqn:Hl;
    [|discriminate].
  destruct (traverse analyze_stats.comparable (analyze_stats.stats_list st))
    as [found|] eqn:Hc; [|discriminate].
  intros H. inversion H; subst r; clear H. simpl.
  exists col_idx. split; [reflexivity|].
  apply loop_spec in Hl as [Hs Hn]. simpl in Hs, Hn.
  pose proof (traverse_length _ _ _ Hc) as Hlen.
  rewrite Hs in Hc, Hlen. rewrite length_appended in Hlen.
  apply comparable_appended in Hc.
  split; [exact Hn|]. split; [exact Hc|].
  split; [exact Hlen|].
  intros sim Hsim. apply simulate_total in Hsim as [Ht Hsum].
  split; [|exact Hsum]. rewrite Ht, Hlen. reflexivity.
Qed.

Lemma missing_statistics_listed_not_counted_witness :
  exists r,
    analyze_stats.analyze_metadata samples.one_without_statistics "origin" 10
    = analyze_stats.Analysed r
    /\ nth_error (analyze_stats.listing r) 0 = Some (analyze_stats.PasDeStats 0 2)
    /\ List.length (analyze_stats.found r) = 2%nat.
Proof.
  eexists. split; [vm_compute; reflexivity|].
  match goal with
  | |- context [analyze_stats.listing ?r] =>
      destruct (missing_statistics_listed_not_counted
                  samples.one_without_statistics "origin" 10 r eq_refl)
        as [col_idx [Hc [Hl [_ [Hn _]]]]]
  end.
  vm_compute in Hc. inversion Hc; subst col_idx.
  split.
  - exact (Hl 0%nat (samples.group_md 2 None) eq_refl eq_refl).
  - exact Hn.
Defined.

(** C3 as stated fails: of three partitions, the first without
    statistics, the simulation counts two partitions in all, one fetched
    and one skipped; the partition without statistics is not among the
    fetched ones. *)
Lemma partition_without_statistics_not_fetched :
  exists r sim,
    analyze_stats.analyze_metadata samples.one_without_statistics "origin" 10
    = analyze_stats.Analysed r
    /\ List.length (row_groups samples.one_without_statistics) = 3%nat
    /\ stats_at 0 (samples.group_md 2 None) = None
    /\ analyze_stats.requete r = Some sim
    /\ analyze_stats.would_download sim = 1
    /\ analyze_stats.would_skip sim = 1
    /\ analyze_stats.total_rg sim = 2.
Proof.
  do 2 eexists. split; [vm_compute; reflexivity|].
  repeat split; reflexivity.
Qed.

(** ** The pruning simulator: overlap detection *)

Lemma string_ltb_negb_leb (a b : string) :
  String.ltb b a = negb (String.leb a b).
Proof.
  unfold String.leb, String.ltb. rewrite (String.compare_antisym b a).
  destruct (String.compare a b); reflexivity.
Qed.

(** On text columns the flag is raised exactly when the previous maximum
    is greater than the minimum of the partition. *)
Lemma visit_text_overlap (col_idx : nat) (rg_idx : Z) (g : row_group_md)
      (st : analyze_stats.loop_state) (prev lo hi : string) :
  analyze_stats.prev_max st = Some prev ->
  stats_at col_idx g = Some {| bounds := Some (SStr lo, SStr hi) |} ->
  exists st',
    analyze_stats.visit col_idx rg_idx g st = Ok st'
    /\ analyze_stats.prev_max st' = Some hi
    /\ analyze_stats.overlaps st'
       = analyze_stats.overlaps st
         + (if Py.le (SStr prev) (SStr lo) then 0 else 1).
Proof.
  unfold stats_at, analyze_stats.visit. intros Hp Hs.
  destruct (nth_error (columns g) col_idx) as [col|]; [|discriminate].
  rewrite Hs, Hp. simpl. rewrite string_ltb_negb_leb.
  destruct (String.leb prev lo); simpl; eexists; repeat split; simpl; lia.
Qed.

(** C4 at two integer partitions, keys 9 then keys 10: the partitions are
    in key order ([9 <= 10]), yet the comparison of the decimal texts
    ["10" < "9"] flags an overlap and the listing is reported as partly
    sorted, one overlap out of one comparison. *)
Theorem integer_partitions_flagged :
  Py.le (SInt 9) (SInt 10) = true
  /\ exists r,
       analyze_stats.analyze_metadata samples.nine_then_ten "origin" 10
       = analyze_stats.Analysed r
       /\ analyze_stats.overlap_count r = 1
       /\ nth_error (analyze_stats.listing r) 1
          = Some (analyze_stats.StatsLine 1 1 "10" "10" analyze_stats.OVERLAP)
       /\ analyze_stats.tri r
          = Some (analyze_stats.PartiellementTriees
                    1 1 (inject_Z 1 / inject_Z (2 - 1) * 100)%Q).
Proof.
  split; [reflexivity|].
  eexists. split; [vm_compute; reflexivity|].
  repeat split; reflexivity.
Qed.

(** ** The command-line tools on a directory without Parquet files *)

Lemma analyze_stats_main_no_files (prog file_path : string) (rest : list string)
      (disk : fs.t) (entries : list (string * fs.file)) :
  disk file_path = Some (fs.Dir entries) ->
  fs.glob_parquet entries = [] ->
  analyze_stats.main (prog :: file_path :: rest) disk
  = {| analyze_stats.exit_status := 1; analyze_stats.analysed := [] |}.
Proof.
  intros Hd Hg. simpl. now rewrite Hd, Hg.
Qed.

Lemma checkParquetMetadata_main_no_files (prog file_path : string)
      (rest : list string) (disk : fs.t) (entries : list (string * fs.file)) :
  disk file_path = Some (fs.Dir entries) ->
  fs.glob_parquet entries = [] ->
  checkParquetMetadata.main (prog :: file_path :: rest) disk
  = {| checkParquetMetadata.exit_status := 1;
       checkParquetMetadata.checked := [] |}.
Proof.
  intros Hd Hg. simpl. now rewrite Hd, Hg.
Qed.

Lemma optimizeParquet_main_no_files (sizes : list row -> Z * Z)
      (a : optimizeParquet.args) (disk : fs.t) (entries : list (string * fs.file)) :
  disk (optimizeParquet.input_dir a) = Some (fs.Dir entries) ->
  fs.glob_parquet entries = [] ->
  optimizeParquet.main sizes a disk
  = {| optimizeParquet.exit_status := 0;
       optimizeParquet.processed := [];
       optimizeParquet.errors := [];
       optimizeParquet.written := [] |}.
Proof.
  intros Hd Hg. unfold optimizeParquet.main. now rewrite Hd, Hg.
Qed.

(** C8 at an existing, empty input directory: the inspector and the
    simulator exit with status 1 without looking at any file; the
    optimizer processes nothing, writes nothing, and ends with status 0. *)
Theorem optimizer_empty_directory_exit_status :
  samples.empty_dir_disk "in"%string = Some (fs.Dir [])
  /\ analyze_stats.exit_status
       (analyze_stats.main ["analyze_stats.py"; "in"]%string samples.empty_dir_disk) = 1
  /\ checkParquetMetadata.exit_status
       (checkParquetMetadata.main ["checkParquetMetadata.py"; "in"]%string
                                  samples.empty_dir_disk) = 1
  /\ optimizeParquet.main samples.no_sizes samples.optimizer_args samples.empty_dir_disk
     = {| optimizeParquet.exit_status := 0;
          optimizeParquet.processed := [];
          optimizeParquet.errors := [];
          optimizeParquet.written := [] |}.
Proof.
  repeat split.
Qed.

(** ** The metadata inspector on a file without row groups *)

Lemma for_each_print {A} (xs : list A) (g : A -> checkParquetMetadata.line)
      (w : list checkParquetMetadata.line) :
  Py.for_each xs (fun x => checkParquetMetadata.print (g x)) w
  = (w ++ map g xs, Ok tt).
Proof.
  apply for_each_emit. intros. reflexivity.
Qed.

(** Whatever its columns, a file without row groups makes the inspector
    print its counts, then fail on the average row group size. *)
Lemma check_file_without_row_groups (f : parquet) :
  pq_row_groups f = [] ->
  exists schema_lines,
    checkParquetMetadata.check_parquet_file (Some (fs.Parquet f))
    = (checkParquetMetadata.NumberOfRows 0
         :: checkParquetMetadata.NumberOfRowGroups 0
         :: checkParquetMetadata.NumberOfColumns
              (Z.of_nat (S (List.length (pq_other_columns f))))
         :: schema_lines
         ++ [checkParquetMetadata.ErrorReadingFile ZeroDivisionError],
       false).
Proof.
  intros H. unfold checkParquetMetadata.check_parquet_file,
    checkParquetMetadata.inspect, read_metadata, num_row_groups, num_columns.
  rewrite H. simpl row_groups. simpl md_num_rows. simpl schema.
  unfold Py.bind at 1. unfold checkParquetMetadata.print at 1, Py.emit at 1.
  unfold Py.bind at 1. unfold checkParquetMetadata.print at 1, Py.emit at 1.
  unfold Py.bind at 1. unfold checkParquetMetadata.print at 1, Py.emit at 1.
  unfold Py.bind at 1. rewrite for_each_print.
  unfold Py.bind at 1. simpl checkParquetMetadata.row_group_loop.
  unfold Py.ret at 1. simpl snd.
  unfold Py.bind at 1, Py.lift at 1. simpl.
  eexists. reflexivity.
Qed.

(** C9 at a file with no rows and no row groups: the inspector prints a
    row count of 0 and a row group count of 0, then the average of an empty
    list of sizes raises [ZeroDivisionError]; the error is printed and the
    function returns [False]. *)
Theorem inspector_fails_on_empty_file :
  md_num_rows (read_metadata samples.empty_file) = 0
  /\ num_row_groups (read_metadata samples.empty_file) = 0
  /\ checkParquetMetadata.check_parquet_file (Some (fs.Parquet samples.empty_file))
     = ([checkParquetMetadata.NumberOfRows 0;
         checkParquetMetadata.NumberOfRowGroups 0;
         checkParquetMetadata.NumberOfColumns 2;
         checkParquetMetadata.SchemaLine 1 "origin"%string;
         checkParquetMetadata.SchemaLine 2 "v"%string;
         checkParquetMetadata.ErrorReadingFile ZeroDivisionError],
        false).
Proof.
  repeat split.
Qed.

(** ** Sorted sequences *)

Lemma sorted_nth {A} (R : A -> A -> Prop) (l : list A) :
  StronglySorted R l ->
  forall p q x y, (p < q)%nat ->
    nth_error l p = Some x -> nth_error l q = Some y -> R x y.
Proof.
  induction 1 as [|a l Hs IH Ha]; intros p q x y Hpq Hp Hq.
  - destruct p; discriminate.
  - destruct q as [|q]; [lia|]. simpl in Hq. destruct p as [|p]; simpl in Hp.
    + inversion Hp; subst. rewrite Forall_forall in Ha.
      apply Ha. eapply nth_error_In; eauto.
    + eapply IH; [|eauto|eauto]. lia.
Qed.

(** * Further properties of the scripts *)

(** ** Row caps that are not positive *)

(** X3: with a row cap of zero, a file that holds at least one row makes
    the chunk count divide by zero: [optimize_parquet_file] raises
    [ZeroDivisionError] and writes no file. *)
Theorem zero_cap_raises
        (sizes : list row -> Z * Z) (name : string) (f : parquet)
        (w : optimizeParquet.outputs) :
  0 < num_rows_of (read_table f) ->
  optimizeParquet.optimize_parquet_file sizes (name, fs.Parquet f) 0 w
  = (w, Raise ZeroDivisionError).
Proof.
  intros Hn. unfold optimizeParquet.optimize_parquet_file.
  cbv beta iota delta [fst snd]. now apply optimize_sorted_zero_cap.
Qed.

Lemma zero_cap_raises_witness :
  0 < num_rows_of (read_table samples.bac)
  /\ optimizeParquet.optimize_parquet_file
       samples.no_sizes ("bac.parquet"%string, fs.Parquet samples.bac) 0 []
     = ([], Raise ZeroDivisionError).
Proof.
  assert (H : 0 < num_rows_of (read_table samples.bac))
    by (vm_compute; reflexivity).
  split; [exact H|].
  exact (zero_cap_raises samples.no_sizes "bac.parquet" samples.bac [] H).
Defined.

Lemma div_neg_nonpos (a c : Z) : 0 <= a -> c < 0 -> a / c <= 0.
Proof.
  intros Ha Hc.
  pose proof (Z.div_mod a c ltac:(lia)) as H.
  pose proof (Z.mod_neg_bound a c Hc) as H'.
  nia.
Qed.

(** X4: with a negative row cap [c] and at least [1 - c] rows, the row
    count exceeds the cap, the chunk count [(n + c - 1) // c] is not
    positive, the loop over the chunks is empty: [optimize_parquet_file]
    returns without an error and without writing any file. *)
Theorem negative_cap_writes_nothing
        (sizes : list row -> Z * Z) (name : string) (f : parquet) (c : Z)
        (w : optimizeParquet.outputs) :
  c < 0 -> 1 - c <= num_rows_of (read_table f) ->
  optimizeParquet.optimize_parquet_file sizes (name, fs.Parquet f) c w
  = (w, Ok tt).
Proof.
  intros Hc Hn. unfold optimizeParquet.optimize_parquet_file.
  cbv beta iota delta [fst snd]. unfold optimizeParquet.optimize_sorted.
  rewrite take_sort_indices. unfold Py.bind at 1, Py.lift at 1.
  replace (num_rows_of (read_table f) >? c) with true
    by (symmetry; apply Z.gtb_lt; lia).
  unfold Py.floordiv.
  replace (c =? 0) with false by (symmetry; apply Z.eqb_neq; lia).
  unfold Py.bind at 1, Py.lift at 1.
  pose proof (div_neg_nonpos (num_rows_of (read_table f) + c - 1) c
                             ltac:(lia) Hc) as Hk.
  unfold Py.range.
  replace (Z.to_nat ((num_rows_of (read_table f) + c - 1) / c)) with 0%nat
    by lia.
  reflexivity.
Qed.

Lemma negative_cap_writes_nothing_witness :
  -1 < 0
  /\ 1 - -1 <= num_rows_of (read_table samples.five)
  /\ optimizeParquet.optimize_parquet_file
       samples.no_sizes ("5.parquet"%string, fs.Parquet samples.five) (-1) []
     = ([], Ok tt).
Proof.
  assert (H1 : -1 < 0) by lia.
  assert (H2 : 1 - -1 <= num_rows_of (read_table samples.five))
    by (vm_compute; discriminate).
  split; [exact H1|]. split; [exact H2|].
  exact (negative_cap_writes_nothing
           samples.no_sizes "5.parquet" samples.five (-1) [] H1 H2).
Defined.

(** ** The optimizer on a directory *)

Lemma appends_ret {S A} (a : A) : appends (@Py.ret (list S) A a).
Proof.
  intros w. unfold Py.ret. simpl. now rewrite app_nil_r.
Qed.

Lemma appends_raise {S A} (e : exn) : appends (@Py.raise (list S) A e).
Proof.
  intros w. unfold Py.raise. simpl. now rewrite app_nil_r.
Qed.

Lemma appends_lift {S A} (r : result A) : appends (@Py.lift (list S) A r).
Proof.
  intros w. unfold Py.lift. simpl. now rewrite app_nil_r.
Qed.

Lemma appends_emit {S} (x : S) : appends (Py.emit x).
Proof.
  intros w. reflexivity.
Qed.

Lemma appends_bind {S A B} (m : M (list S) A) (k : A -> M (list S) B) :
  appends m -> (forall a, appends (k a)) -> appends (Py.bind m k).
Proof.
  intros Hm Hk w. unfold Py.bind. rewrite (Hm w).
  destruct (m []) as [x [a|e]]; simpl.
  - rewrite (Hk a (w ++ x)), (Hk a x). simpl. now rewrite app_assoc.
  - reflexivity.
Qed.

Lemma appends_for_each {S A} (xs : list A) (body : A -> M (list S) unit) :
  (forall x, appends (body x)) -> appends (Py.for_each xs body).
Proof.
  intros H. induction xs as [|x xs IH]; simpl.
  - apply appends_ret.
  - apply appends_bind; auto.
Qed.

Lemma appends_write (sizes : list row -> Z * Z) (t : table) (name : string) :
  appends (optimizeParquet.write_optimized_parquet sizes t name).
Proof.
  unfold optimizeParquet.write_optimized_parquet.
  apply appends_bind; [apply appends_lift|]. intros f. apply appends_emit.
Qed.

Lemma appends_optimize (sizes : list row -> Z * Z) (pf : string * fs.file)
      (c : Z) :
  appends (optimizeParquet.optimize_parquet_file sizes pf c).
Proof.
  unfold optimizeParquet.optimize_parquet_file.
  destruct (snd pf); [|apply appends_raise].
  unfold optimizeParquet.optimize_sorted.
  apply appends_bind; [apply appends_lift|]. intros t.
  destruct (_ >? _).
  - apply appends_bind; [apply appends_lift|]. intros k.
    apply appends_for_each. intros i.
    apply appends_bind; [apply appends_lift|]. intros chunk.
    apply appends_write.
  - apply appends_write.
Qed.

Lemma process_all_spec (sizes : list row -> Z * Z) (c : Z)
      (files : list (string * fs.file)) :
  forall r,
    optimizeParquet.process_all sizes files c r
    = {| optimizeParquet.exit_status := optimizeParquet.exit_status r;
         optimizeParquet.processed :=
           optimizeParquet.processed r ++ map fst files;
         optimizeParquet.errors :=
           optimizeParquet.errors r ++ flat_map (errors_of sizes c) files;
         optimizeParquet.written :=
           optimizeParquet.written r ++ flat_map (outputs_of sizes c) files |}.
Proof.
  induction files as [|pf files IH]; intros r; simpl.
  - rewrite !app_nil_r. now destruct r.
  - rewrite (appends_optimize sizes pf c (optimizeParquet.written r)).
    rewrite IH. unfold errors_of, outputs_of.
    destruct (optimizeParquet.optimize_parquet_file sizes pf c [])
      as [x [u|e]]; simpl; rewrite <- ?app_assoc; reflexivity.
Qed.

(** X5: the optimizer tool ends with status 1 exactly when the input
    path does not exist; once the path exists the status is 0, whatever
    happens to the files (errors while processing a file never change the
    exit status). *)
Theorem optimizer_exit_status
        (sizes : list row -> Z * Z) (a : optimizeParquet.args) (disk : fs.t) :
  optimizeParquet.exit_status (optimizeParquet.main sizes a disk)
  = match disk (optimizeParquet.input_dir a) with
    | None => 1
    | Some _ => 0
    end.
Proof.
  unfold optimizeParquet.main.
  destruct (disk (optimizeParquet.input_dir a)); [|reflexivity].
  now rewrite process_all_spec.
Qed.

(** ** What the optimizer writes *)

Lemma silent_lift {S A} (r : result A) : silent (@Py.lift S A r).
Proof.
  intros w. reflexivity.
Qed.

Lemma silent_bind {S A B} (m : M S A) (k : A -> M S B) :
  silent m -> (forall a, silent (k a)) -> silent (Py.bind m k).
Proof.
  intros Hm Hk w. unfold Py.bind.
  pose proof (Hm w) as H. destruct (m w) as [w' [a|e]]; simpl in H; subst w'.
  - apply Hk.
  - reflexivity.
Qed.

Lemma silent_for_each {S A} (xs : list A) (body : A -> M S unit) :
  (forall x, silent (body x)) -> silent (Py.for_each xs body).
Proof.
  intros H. induction xs as [|x xs IH]; simpl.
  - intros w. reflexivity.
  - apply silent_bind; auto.
Qed.

Lemma silent_optimize (sizes : list row -> Z * Z) (pf : string * fs.file)
      (c : Z) :
  silent (optimizeParquet.optimize_parquet_file sizes pf c).
Proof.
  unfold optimizeParquet.optimize_parquet_file.
  destruct (snd pf); [|intros w; reflexivity].
  unfold optimizeParquet.optimize_sorted.
  apply silent_bind; [apply silent_lift|]. intros t.
  destruct (_ >? _).
  - apply silent_bind; [apply silent_lift|]. intros k.
    apply silent_for_each. intros i.
    apply silent_bind; [apply silent_lift|]. intros chunk w.
    now rewrite write_raises.
  - intros w. now rewrite write_raises.
Qed.

(** X1: [optimize_parquet_file] never completes a write, whatever the
    input file and the row cap: it leaves the output directory as it
    found it, and a whole run of the tool writes no file. *)
Theorem optimizer_never_writes
        (sizes : list row -> Z * Z) (pf : string * fs.file) (c : Z)
        (w : optimizeParquet.outputs) (a : optimizeParquet.args) (disk : fs.t) :
  fst (optimizeParquet.optimize_parquet_file sizes pf c w) = w
  /\ optimizeParquet.written (optimizeParquet.main sizes a disk) = [].
Proof.
  split; [apply silent_optimize|].
  unfold optimizeParquet.main.
  destruct (disk (optimizeParquet.input_dir a)); [|reflexivity].
  rewrite process_all_spec. simpl.
  induction (fs.sorted _) as [|x l IH]; simpl; [reflexivity|].
  rewrite IH, app_nil_r. apply silent_optimize.
Qed.

(** The error a file of the batch ends with under a positive row cap. *)
Lemma errors_of_positive_cap (sizes : list row -> Z * Z) (c : Z)
      (pf : string * fs.file) :
  0 < c ->
  errors_of sizes c pf
  = [match snd pf with
     | fs.Unreadable => ArrowInvalid
     | fs.Parquet _ => TypeError
     end].
Proof.
  intros Hc. unfold errors_of, optimizeParquet.optimize_parquet_file.
  destruct (snd pf) as [f|]; [|reflexivity].
  destruct (Z_lt_le_dec c (num_rows_of (read_table f))) as [Hn|Hn].
  - now rewrite optimize_sorted_split.
  - now rewrite optimize_sorted_single.
Qed.

(** X6: on an existing directory and with a positive row cap, the tool
    goes through the files matching the pattern in ascending name order,
    and every one of them ends in an error that is caught: the error of
    the reader for a file that cannot be read, [TypeError] from the write
    for every other file; no file is written. *)
Theorem optimizer_batch_errors
        (sizes : list row -> Z * Z) (a : optimizeParquet.args) (disk : fs.t)
        (entries : list (string * fs.file)) :
  disk (optimizeParquet.input_dir a) = Some (fs.Dir entries) ->
  0 < optimizeParquet.max_rows a ->
  let files := fs.sorted (fs.glob_parquet entries) in
  let r := optimizeParquet.main sizes a disk in
  optimizeParquet.processed r = map fst files
  /\ optimizeParquet.errors r
     = map (fun pf => match snd pf with
                      | fs.Unreadable => ArrowInvalid
                      | fs.Parquet _ => TypeError
                      end) files
  /\ optimizeParquet.written r = []
  /\ optimizeParquet.exit_status r = 0.
Proof.
  intros Hd Hc files r. unfold r, optimizeParquet.main. rewrite Hd.
  fold files. rewrite process_all_spec. simpl.
  split; [reflexivity|]. split; [|split; [|reflexivity]].
  - induction files as [|pf l IH]; simpl; [reflexivity|].
    now rewrite IH, errors_of_positive_cap.
  - induction files as [|pf l IH]; simpl; [reflexivity|].
    rewrite IH, app_nil_r. apply silent_optimize.
Qed.

Lemma optimizer_batch_errors_witness :
  samples.mixed_dir_disk (optimizeParquet.input_dir samples.optimizer_args)
  = Some (fs.Dir [("b.parquet"%string, fs.Parquet samples.bac);
                  ("a.parquet"%string, fs.Unreadable);
                  ("notes.txt"%string, fs.Unreadable)])
  /\ 0 < optimizeParquet.max_rows samples.optimizer_args
  /\ optimizeParquet.processed
       (optimizeParquet.main samples.no_sizes samples.optimizer_args
                             samples.mixed_dir_disk)
     = ["a.parquet"; "b.parquet"]%string
  /\ optimizeParquet.errors
       (optimizeParquet.main samples.no_sizes samples.optimizer_args
                             samples.mixed_dir_disk)
     = [ArrowInvalid; TypeError].
Proof.
  assert (H1 : samples.mixed_dir_disk
                 (optimizeParquet.input_dir samples.optimizer_args)
               = Some (fs.Dir [("b.parquet"%string, fs.Parquet samples.bac);
                               ("a.parquet"%string, fs.Unreadable);
                               ("notes.txt"%string, fs.Unreadable)]))
    by reflexivity.
  assert (H2 : 0 < optimizeParquet.max_rows samples.optimizer_args)
    by reflexivity.
  split; [exact H1|]. split; [exact H2|].
  destruct (optimizer_batch_errors
              samples.no_sizes samples.optimizer_args samples.mixed_dir_disk
              _ H1 H2) as [Hp [He _]].
  split; [exact Hp | exact He].
Defined.

(** ** The simulator: column lookup and listing *)

Lemma find_column_none (column_name : string) (names : list string) :
  forall i, analyze_stats.find_column column_name names i = None
            <-> ~ In column_name names.
Proof.
  induction names as [|n names IH]; intros i; simpl.
  - tauto.
  - destruct (String.eqb_spec n column_name) as [E|E].
    + split; [discriminate | intros H; exfalso; apply H; now left].
    + rewrite IH. tauto.
Qed.

(** X8: the analysis ends with "column not found" exactly when the
    requested column is not in the schema, and it then reports all the
    column names of the file; it never does so for a column of the
    schema. *)
Theorem column_not_found_iff
        (md : metadata) (column_name : string) (max_row_groups : Z)
        (available_cols : list string) :
  analyze_stats.analyze_metadata md column_name max_row_groups
  = analyze_stats.ColonneNonTrouvee available_cols
  <-> ~ In column_name (schema md) /\ available_cols = schema md.
Proof.
  unfold analyze_stats.analyze_metadata.
  destruct (analyze_stats.find_column column_name (schema md) 0) as [i|] eqn:E.
  - assert (Hin : In column_name (schema md)).
    { destruct (in_dec String.string_dec column_name (schema md)) as [H|H];
        [exact H|]. apply (find_column_none _ _ 0%nat) in H. congruence. }
    destruct (analyze_stats.loop i 0 _ analyze_stats.initial) as [st|];
      [destruct (traverse analyze_stats.comparable (analyze_stats.stats_list st))|];
      split; try discriminate; tauto.
  - apply find_column_none in E. split.
    + intros H. inversion H. auto.
    + intros [_ ->]. reflexivity.
Qed.

Lemma visit_line (col_idx : nat) (rg_idx : Z) (g : row_group_md)
      (st st' : analyze_stats.loop_state) :
  analyze_stats.visit col_idx rg_idx g st = Ok st' ->
  exists ln,
    analyze_stats.lines st' = analyze_stats.lines st ++ [ln]
    /\ line_index ln = rg_idx.
Proof.
  unfold analyze_stats.visit.
  destruct (nth_error (columns g) col_idx) as [col|]; [|discriminate].
  destruct (stats col) as [s|].
  - destruct (analyze_stats.prev_max st) as [pm|];
      [destruct (String.ltb (Py.str_of (min s)) pm)|];
      intros H; inversion H; subst; clear H; simpl;
      eexists; split; reflexivity.
  - intros H; inversion H; subst; clear H; simpl.
    eexists; split; reflexivity.
Qed.

Lemma loop_line_indices (col_idx : nat) (groups : list row_group_md) :
  forall (rg_idx : Z) (st st' : analyze_stats.loop_state),
    analyze_stats.loop col_idx rg_idx groups st = Ok st' ->
    map line_index (analyze_stats.lines st')
    = map line_index (analyze_stats.lines st)
      ++ map (fun j => rg_idx + Z.of_nat j) (seq 0 (List.length groups)).
Proof.
  induction groups as [|g groups IH]; intros rg_idx st st' H; simpl in H.
  - inversion H. simpl. now rewrite app_nil_r.
  - destruct (analyze_stats.visit col_idx rg_idx g st) as [st1|] eqn:Hv;
      [|discriminate].
    apply visit_line in Hv as [ln [Hl Hi]].
    rewrite (IH _ _ _ H), Hl, map_app. simpl.
    rewrite <- app_assoc. simpl. f_equal. f_equal.
    + lia.
    + rewrite <- seq_shift, map_map. apply map_ext. intros; lia.
Qed.

(** X9: the listing of an analysis has one line for each of the first
    [min(max_row_groups, num_row_groups)] row groups of the file, in
    physical order and numbered from 0, with or without statistics; row
    groups past [max_row_groups] get no line. *)
Theorem listing_one_line_per_row_group
        (md : metadata) (column_name : string) (max_row_groups : Z)
        (r : analyze_stats.report) :
  analyze_stats.analyze_metadata md column_name max_row_groups
  = analyze_stats.Analysed r ->
  map line_index (analyze_stats.listing r)
  = Py.range (Z.min max_row_groups (num_row_groups md)).
Proof.
  unfold analyze_stats.analyze_metadata.
  destruct (analyze_stats.find_column column_name (schema md) 0) as [col_idx|];
    [|discriminate].
  destruct (analyze_stats.loop col_idx 0 _ analyze_stats.initial) as [st|] eqn:Hl;
    [|discriminate].
  destruct (traverse analyze_stats.comparable (analyze_stats.stats_list st))
    as [found|] eqn:Hc; [|discriminate].
  intros H. inversion H; subst r; clear H. simpl.
  apply loop_line_indices in Hl. rewrite Hl. simpl.
  unfold Py.range. rewrite length_firstn. unfold num_row_groups.
  replace (Nat.min (Z.to_nat (Z.min max_row_groups
                                    (Z.of_nat (List.length (row_groups md)))))
                   (List.length (row_groups md)))
    with (Z.to_nat (Z.min max_row_groups (Z.of_nat (List.length (row_groups md)))))
    by lia.
  apply map_ext. intros; lia.
Qed.

Lemma listing_one_line_per_row_group_witness :
  exists r,
    analyze_stats.analyze_metadata samples.one_without_statistics "origin" 2
    = analyze_stats.Analysed r
    /\ map line_index (analyze_stats.listing r) = [0; 1].
Proof.
  eexists. split; [vm_compute; reflexivity|].
  match goal with
  | |- context [analyze_stats.listing ?r] =>
      exact (listing_one_line_per_row_group
               samples.one_without_statistics "origin" 2 r eq_refl)
  end.
Defined.

(** ** The simulator: bounds on the overlap count *)

Lemma visit_overlaps_bounded (col_idx : nat) (rg_idx : Z) (g : row_group_md)
      (st st' : analyze_stats.loop_state) :
  analyze_stats.visit col_idx rg_idx g st = Ok st' ->
  overlaps_bounded st -> overlaps_bounded st'.
Proof.
  unfold analyze_stats.visit, overlaps_bounded.
  destruct (nth_error (columns g) col_idx) as [col|]; [|discriminate].
  destruct (stats col) as [s|].
  - destruct (analyze_stats.prev_max st) as [pm|];
      [destruct (String.ltb (Py.str_of (min s)) pm)|];
      intros H [H0 H1]; inversion H; subst; clear H; simpl;
      rewrite length_app; simpl.
    + lia.
    + lia.
    + destruct H1 as [-> ->]. simpl. lia.
  - intros H Hb. inversion H; subst; clear H. simpl. exact Hb.
Qed.

Lemma loop_overlaps_bounded (col_idx : nat) (groups : list row_group_md) :
  forall (rg_idx : Z) (st st' : analyze_stats.loop_state),
    analyze_stats.loop col_idx rg_idx groups st = Ok st' ->
    overlaps_bounded st -> overlaps_bounded st'.
Proof.
  induction groups as [|g groups IH]; intros rg_idx st st' H Hb; simpl in H.
  - inversion H; subst. exact Hb.
  - destruct (analyze_stats.visit col_idx rg_idx g st) as [st1|] eqn:Hv;
      [|discriminate].
    eapply IH; [exact H|]. eapply visit_overlaps_bounded; eauto.
Qed.

Lemma percentage_bounds (o t : Z) :
  0 < o -> o <= t ->
  (0 < inject_Z o / inject_Z t * 100 /\ inject_Z o / inject_Z t * 100 <= 100)%Q.
Proof.
  intros Ho Ht.
  destruct o as [|o|o]; try lia. destruct t as [|t|t]; try lia.
  unfold Qlt, Qle, Qdiv, Qmult, Qinv, inject_Z. simpl. split; nia.
Qed.

(** X10: the overlap count of an analysis is never negative and never
    exceeds the number of comparisons, [len(stats_list) - 1] (it is 0 when
    at most one partition carries statistics); when the layout is reported
    as partly sorted, the printed percentage is above 0 and at most 100. *)
Theorem overlap_count_bounded
        (md : metadata) (column_name : string) (max_row_groups : Z)
        (r : analyze_stats.report) :
  analyze_stats.analyze_metadata md column_name max_row_groups
  = analyze_stats.Analysed r ->
  0 <= analyze_stats.overlap_count r
       <= Z.max 0 (Z.of_nat (List.length (analyze_stats.found r)) - 1)
  /\ forall o t p,
       analyze_stats.tri r = Some (analyze_stats.PartiellementTriees o t p) ->
       o = analyze_stats.overlap_count r
       /\ t = Z.of_nat (List.length (analyze_stats.found r)) - 1
       /\ 0 < o <= t
       /\ (0 < p /\ p <= 100)%Q.
Proof.
  unfold analyze_stats.analyze_metadata.
  destruct (analyze_stats.find_column column_name (schema md) 0) as [col_idx|];
    [|discriminate].
  destruct (analyze_stats.loop col_idx 0 _ analyze_stats.initial) as [st|] eqn:Hl;
    [|discriminate].
  destruct (traverse analyze_stats.comparable (analyze_stats.stats_list st))
    as [found|] eqn:Hc; [|discriminate].
  intros H. inversion H; subst r; clear H. simpl.
  apply traverse_length in Hc. rewrite Hc.
  assert (Hb : overlaps_bounded st).
  { eapply loop_overlaps_bounded; [exact Hl|].
    unfold overlaps_bounded. simpl. auto with zarith. }
  assert (Hov : 0 <= analyze_stats.overlaps st
                <= Z.max 0 (Z.of_nat (List.length (analyze_stats.stats_list st)) - 1)).
  { destruct Hb as [H0 H1].
    destruct (analyze_stats.prev_max st); [lia|].
    destruct H1 as [-> ->]. simpl. lia. }
  split; [exact Hov|].
  intros o t p. unfold analyze_stats.sort_analysis.
  destruct (Z.of_nat (List.length (analyze_stats.stats_list st)) >? 1) eqn:E1;
    [|discriminate].
  destruct (analyze_stats.overlaps st =? 0) eqn:E0; [discriminate|].
  intros H. inversion H; subst; clear H.
  apply Z.gtb_lt in E1. apply Z.eqb_neq in E0.
  split; [reflexivity|]. split; [reflexivity|]. split; [lia|].
  apply percentage_bounds; lia.
Qed.

Lemma overlap_count_bounded_witness :
  exists r,
    analyze_stats.analyze_metadata samples.nine_then_ten "origin" 10
    = analyze_stats.Analysed r
    /\ 0 <= analyze_stats.overlap_count r
            <= Z.max 0 (Z.of_nat (List.length (analyze_stats.found r)) - 1).
Proof.
  eexists. split; [vm_compute; reflexivity|].
  match goal with
  | |- context [analyze_stats.overlap_count ?r] =>
      exact (proj1 (overlap_count_bounded
                      samples.nine_then_ten "origin" 10 r eq_refl))
  end.
Defined.

(** ** The simulator: displayed bounds *)

Lemma len_app (a b : string) : Py.len (a ++ b) = (Py.len a + Py.len b)%nat.
Proof.
  induction a as [|c a IH]; simpl; [reflexivity|].
  destruct (Py.continuation c); simpl; now rewrite IH.
Qed.

Lemma len_prefix_of (s : string) :
  forall n, Py.len (Py.prefix_of n s) = Nat.min n (Py.len s).
Proof.
  induction s as [|c s IH]; intros n; simpl.
  - now rewrite Nat.min_0_r.
  - destruct (Py.continuation c) eqn:E; simpl.
    + rewrite E. apply IH.
    + destruct n as [|n]; simpl; [reflexivity|]. rewrite E, IH. reflexivity.
Qed.

(** X11: a displayed bound has at most 30 characters, and as many as the
    bound when that has at most 30: the length of what is displayed is
    [min(30, len(v))], in characters.  A bound of 16 two-byte characters
    (32 bytes) is displayed whole. *)
Theorem display_length (v : string) :
  Py.len (analyze_stats.display v) = Nat.min 30 (Py.len v)
  /\ String.length samples.sixteen_accents = 32%nat
  /\ analyze_stats.display samples.sixteen_accents = samples.sixteen_accents.
Proof.
  split; [|split; reflexivity].
  unfold analyze_stats.display.
  destruct (30 <? Py.len v)%nat eqn:E.
  - apply Nat.ltb_lt in E. rewrite len_app, len_prefix_of.
    change (Py.len "..") with 2%nat. lia.
  - apply Nat.ltb_ge in E. lia.
Qed.

(** ** The simulator: what the fetch simulation finds *)

Lemma counted_nonneg (v : scalar) (l : list analyze_stats.stat) (d k : Z) :
  counted v l d k -> 0 <= d /\ 0 <= k.
Proof.
  induction 1; lia.
Qed.

Lemma counted_fetches (v : scalar) (l : list analyze_stats.stat) (d k : Z)
      (s : analyze_stats.stat) :
  counted v l d k -> In s l -> must_fetch v s -> 1 <= d.
Proof.
  induction 1 as [|s' l d k Hs Hc IH|s' l d k Hs Hc IH]; intros Hin Hf.
  - contradiction.
  - apply counted_nonneg in Hc. lia.
  - destruct Hin as [->|Hin]; [contradiction | auto].
Qed.

Lemma counted_none (v : scalar) (l : list analyze_stats.stat) (d k : Z) :
  counted v l d k -> (forall s, In s l -> ~ must_fetch v s) -> d = 0.
Proof.
  induction 1 as [|s' l d k Hs Hc IH|s' l d k Hs Hc IH]; intros Hn.
  - reflexivity.
  - exfalso. apply (Hn s'); [now left | exact Hs].
  - apply IH. intros s Hin. apply Hn. now right.
Qed.

Lemma counted_app (v : scalar) (l1 l2 : list analyze_stats.stat) :
  forall d k, counted v (l1 ++ l2) d k ->
    exists d1 k1 d2 k2,
      counted v l1 d1 k1 /\ counted v l2 d2 k2 /\ d = d1 + d2 /\ k = k1 + k2.
Proof.
  induction l1 as [|s l1 IH]; simpl; intros d k H.
  - exists 0, 0, d, k. repeat split; [constructor | exact H].
  - inversion H as [|? ? d' k' Hs Hc|? ? d' k' Hs Hc]; subst.
    + destruct (IH _ _ Hc) as [d1 [k1 [d2 [k2 [H1 [H2 [-> ->]]]]]]].
      exists (d1 + 1), k1, d2, k2. repeat split; [now constructor | auto | lia].
    + destruct (IH _ _ Hc) as [d1 [k1 [d2 [k2 [H1 [H2 [-> ->]]]]]]].
      exists d1, (k1 + 1), d2, k2. repeat split; [now constructor | auto | lia].
Qed.

Lemma middle_exists (l : list analyze_stats.stat) :
  l <> [] ->
  exists s, nth_error l (Z.to_nat (Z.of_nat (List.length l) / 2)) = Some s.
Proof.
  intros Hl.
  destruct (nth_error l (Z.to_nat (Z.of_nat (List.length l) / 2))) as [s|] eqn:E;
    [eauto|].
  apply nth_error_None in E. destruct l; [contradiction|]. simpl List.length in E.
  pose proof (Z.div_lt (Z.of_nat (S (List.length l))) 2 ltac:(lia) ltac:(lia)).
  pose proof (Z.div_pos (Z.of_nat (S (List.length l))) 2 ltac:(lia) ltac:(lia)).
  lia.
Qed.

Lemma simulate_counted (l : list analyze_stats.stat) (s : analyze_stats.stat) :
  nth_error l (Z.to_nat (Z.of_nat (List.length l) / 2)) = Some s ->
  exists sim,
    analyze_stats.simulate l = Some sim
    /\ analyze_stats.test_value sim = analyze_stats.st_min s
    /\ analyze_stats.total_rg sim = Z.of_nat (List.length l)
    /\ analyze_stats.skip_percentage sim
       = (inject_Z (analyze_stats.would_skip sim)
          / inject_Z (Z.of_nat (List.length l)) * 100)%Q
    /\ analyze_stats.verdict sim
       = analyze_stats.classify (analyze_stats.skip_percentage sim)
    /\ counted (analyze_stats.st_min s) l
               (analyze_stats.would_download sim) (analyze_stats.would_skip sim).
Proof.
  intros Hs. unfold analyze_stats.simulate. rewrite Hs.
  eexists. split; [reflexivity|].
  unfold analyze_stats.simulate_with, analyze_stats.count_query.
  destruct (count_query_acc (analyze_stats.st_min s) l 0 0) as [d [k [Hf Hc]]].
  rewrite Hf. simpl. repeat split. exact Hc.
Qed.

(** X12: on a non-empty list of partitions whose statistics all have
    [min <= max], the fetch simulation runs, looks up the minimum of the
    middle partition, fetches at least one partition and so never skips
    all of them. *)
Theorem simulation_fetches_some (l : list analyze_stats.stat) :
  l <> [] -> Forall bounds_in_order l ->
  exists sim,
    analyze_stats.simulate l = Some sim
    /\ In (analyze_stats.test_value sim) (map analyze_stats.st_min l)
    /\ 1 <= analyze_stats.would_download sim
    /\ 0 <= analyze_stats.would_skip sim < analyze_stats.total_rg sim.
Proof.
  intros Hl Hb. destruct (middle_exists l Hl) as [s Hs].
  destruct (simulate_counted l s Hs) as [sim [Hsim [Hv [Ht [_ [_ Hc]]]]]].
  exists sim. split; [exact Hsim|].
  assert (Hin : In s l) by (eapply nth_error_In; eauto).
  split; [rewrite Hv; now apply in_map|].
  assert (Hd : 1 <= analyze_stats.would_download sim).
  { eapply counted_fetches; [exact Hc | exact Hin|].
    split; [apply le_refl|]. rewrite Forall_forall in Hb. now apply Hb. }
  split; [exact Hd|].
  pose proof (counted_total _ _ _ _ Hc). pose proof (counted_nonneg _ _ _ _ Hc).
  lia.
Qed.

Lemma simulation_fetches_some_witness :
  [{| analyze_stats.rg := 0; analyze_stats.st_min := SStr "a";
      analyze_stats.st_max := SStr "c"; analyze_stats.st_rows := 3 |}] <> []
  /\ exists sim,
       analyze_stats.simulate
         [{| analyze_stats.rg := 0; analyze_stats.st_min := SStr "a";
             analyze_stats.st_max := SStr "c"; analyze_stats.st_rows := 3 |}]
       = Some sim
       /\ 1 <= analyze_stats.would_download sim.
Proof.
  assert (H1 : [{| analyze_stats.rg := 0; analyze_stats.st_min := SStr "a";
                   analyze_stats.st_max := SStr "c";
                   analyze_stats.st_rows := 3 |}] <> []) by discriminate.
  split; [exact H1|].
  destruct (simulation_fetches_some _ H1
              ltac:(repeat constructor)) as [sim [Hs [_ [Hd _]]]].
  exists sim. split; assumption.
Defined.

Lemma skip_percentage_le (k n b : Z) :
  0 <= k -> 0 < n ->
  (inject_Z k / inject_Z n * 100 <= inject_Z b)%Q <-> 100 * k <= b * n.
Proof.
  intros Hk Hn. destruct n as [|n|n]; try lia.
  unfold Qle, Qdiv, Qmult, Qinv, inject_Z. cbn [Qnum Qden].
  rewrite !Pos2Z.inj_mul. lia.
Qed.

(** X13: on partitions whose statistics have [min <= max] and whose key
    ranges are strictly one after the other (each maximum below every
    later minimum), the fetch simulation fetches exactly one partition and
    skips all the others; the grade then depends on the number [n] of
    partitions only: [Excellent] from 6 partitions on, [Correct] for 3 to
    5, [Mauvais] for 1 or 2. *)
Theorem sorted_layout_fetches_one (l : list analyze_stats.stat) :
  l <> [] -> Forall bounds_in_order l -> StronglySorted strictly_before l ->
  exists sim,
    analyze_stats.simulate l = Some sim
    /\ analyze_stats.would_download sim = 1
    /\ analyze_stats.would_skip sim = Z.of_nat (List.length l) - 1
    /\ (analyze_stats.verdict sim = analyze_stats.Excellent
        <-> (6 <= List.length l)%nat)
    /\ (analyze_stats.verdict sim = analyze_stats.Correct
        <-> (3 <= List.length l <= 5)%nat)
    /\ (analyze_stats.verdict sim = analyze_stats.Mauvais
        <-> (List.length l <= 2)%nat).
Proof.
  intros Hl Hb Hs. destruct (middle_exists l Hl) as [s Hmid].
  destruct (simulate_counted l s Hmid) as [sim [Hsim [Hv [Ht [Hp [Hg Hc]]]]]].
  exists sim. split; [exact Hsim|].
  destruct (nth_error_split l _ Hmid) as [l1 [l2 [El Elen]]].
  rewrite Forall_forall in Hb.
  assert (Hs_in : In s l) by (eapply nth_error_In; eauto).
  assert (H1 : forall x, In x l1 -> ~ must_fetch (analyze_stats.st_min s) x).
  { intros x Hx [_ Hf]. apply In_nth_error in Hx as [p Hp'].
    assert (Hlt : (p < List.length l1)%nat)
      by (apply nth_error_Some; congruence).
    assert (R : strictly_before x s).
    { apply (sorted_nth _ _ Hs p (List.length l1)); [exact Hlt| |].
      - rewrite El, nth_error_app1 by exact Hlt. exact Hp'.
      - rewrite El, nth_error_app2, Nat.sub_diag by lia. reflexivity. }
    unfold strictly_before in R. congruence. }
  assert (H2 : forall y, In y l2 -> ~ must_fetch (analyze_stats.st_min s) y).
  { intros y Hy [Hf _]. apply In_nth_error in Hy as [q Hq].
    assert (R : strictly_before s y).
    { apply (sorted_nth _ _ Hs (List.length l1) (S (List.length l1 + q)));
        [lia| |].
      - rewrite El, nth_error_app2, Nat.sub_diag by lia. reflexivity.
      - rewrite El, nth_error_app2 by lia.
        replace (S (List.length l1 + q) - List.length l1)%nat with (S q) by lia.
        exact Hq. }
    unfold strictly_before in R.
    assert (Py.le (analyze_stats.st_min y) (analyze_stats.st_max s) = true)
      by (eapply le_trans; [exact Hf | apply Hb, Hs_in]).
    congruence. }
  assert (Hd : analyze_stats.would_download sim = 1).
  { rewrite El in Hc. apply counted_app in Hc
      as [d1 [k1 [d2 [k2 [C1 [C2 [Ed Ek]]]]]]].
    rewrite (counted_none _ _ _ _ C1 H1) in Ed.
    inversion C2 as [|? ? d' k' Hf C3|? ? d' k' Hf C3]; subst.
    - rewrite (counted_none _ _ _ _ C3 H2) in Ed. lia.
    - exfalso. apply Hf. split; [apply le_refl | apply Hb, Hs_in]. }
  split; [exact Hd|].
  pose proof (counted_total _ _ _ _ Hc) as Hsum.
  assert (Hk : analyze_stats.would_skip sim = Z.of_nat (List.length l) - 1) by lia.
  split; [exact Hk|].
  assert (Hn : 0 < Z.of_nat (List.length l)) by (destruct l; simpl; [contradiction|lia]).
  rewrite Hg, Hp, Hk. unfold analyze_stats.classify.
  set (p := (inject_Z (Z.of_nat (List.length l) - 1)
             / inject_Z (Z.of_nat (List.length l)) * 100)%Q).
  assert (P80 : (p <= 80)%Q <-> (List.length l <= 5)%nat).
  { unfold p. change 80%Q with (inject_Z 80).
    rewrite skip_percentage_le by lia. lia. }
  assert (P50 : (p <= 50)%Q <-> (List.length l <= 2)%nat).
  { unfold p. change 50%Q with (inject_Z 50).
    rewrite skip_percentage_le by lia. lia. }
  destruct (Qle_bool p 80) eqn:E80; simpl.
  - apply Qle_bool_iff in E80. apply P80 in E80.
    destruct (Qle_bool p 50) eqn:E50; simpl.
    + apply Qle_bool_iff in E50. apply P50 in E50.
      repeat split; try discriminate; intros; lia.
    + assert (~ (List.length l <= 2)%nat).
      { intros H. apply P50, Qle_bool_iff in H. congruence. }
      repeat split; try discriminate; intros; lia.
  - assert (~ (List.length l <= 5)%nat).
    { intros H. apply P80, Qle_bool_iff in H. congruence. }
    repeat split; try discriminate; intros; lia.
Qed.

Lemma sorted_layout_fetches_one_witness :
  samples.three_sorted_stats <> []
  /\ exists sim,
       analyze_stats.simulate samples.three_sorted_stats = Some sim
       /\ analyze_stats.would_download sim = 1
       /\ analyze_stats.would_skip sim = 2.
Proof.
  assert (H1 : samples.three_sorted_stats <> []) by discriminate.
  split; [exact H1|].
  destruct (sorted_layout_fetches_one samples.three_sorted_stats H1
              ltac:(repeat constructor) ltac:(repeat constructor))
    as [sim [Hs [Hd [Hk _]]]].
  exists sim. repeat split; assumption.
Defined.

(** ** The simulator: statistics without bounds *)

Lemma loop_total (col_idx : nat) (groups : list row_group_md) :
  Forall (fun g => (col_idx < List.length (columns g))%nat) groups ->
  forall (rg_idx : Z) (st : analyze_stats.loop_state),
    exists st', analyze_stats.loop col_idx rg_idx groups st = Ok st'.
Proof.
  induction 1 as [|g groups Hg _ IH]; intros rg_idx st; simpl.
  - eexists. reflexivity.
  - apply nth_error_Some in Hg.
    assert (Hv : exists st1, analyze_stats.visit col_idx rg_idx g st = Ok st1).
    { unfold analyze_stats.visit.
      destruct (nth_error (columns g) col_idx) as [col|]; [|congruence].
      destruct (stats col) as [s|]; [|eexists; reflexivity].
      destruct (analyze_stats.prev_max st) as [pm|];
        [destruct (String.ltb (Py.str_of (min s)) pm)|];
        eexists; reflexivity. }
    destruct Hv as [st1 ->]. apply IH.
Qed.

Lemma in_appended (col_idx : nat) (groups : list row_group_md) (g : row_group_md) :
  In g groups -> stats_at col_idx g = Some {| bounds := None |} ->
  forall rg_idx, exists e,
    In e (appended col_idx rg_idx groups) /\ analyze_stats.e_bounds e = None.
Proof.
  induction groups as [|g' groups IH]; intros Hin Hs rg_idx; [contradiction|].
  simpl. destruct Hin as [->|Hin].
  - rewrite Hs. eexists. split; [left; reflexivity | reflexivity].
  - destruct (IH Hin Hs (rg_idx + 1)) as [e [He Hb]].
    exists e. split; [apply in_or_app; now right | exact Hb].
Qed.

Lemma traverse_comparable (l : list analyze_stats.entry) :
  (exists e, In e l /\ analyze_stats.e_bounds e = None) ->
  traverse analyze_stats.comparable l = Raise TypeError.
Proof.
  induction l as [|x l IH]; intros [e [Hin Hb]]; [contradiction|].
  simpl. unfold analyze_stats.comparable at 1.
  destruct (analyze_stats.e_bounds x) as [[lo hi]|] eqn:Ex; [|reflexivity].
  destruct Hin as [->|Hin]; [congruence|].
  rewrite IH by eauto. reflexivity.
Qed.

(** X19: when one of the row groups shown has statistics without bounds
    on the analysed column (a chunk of null keys), the row groups are
    listed, the bounds [None] go into [stats_list], and the comparison of
    the query simulation raises: the analysis ends with [TypeError]. *)
Theorem statistics_without_bounds_end_analysis
        (md : metadata) (column_name : string) (max_row_groups : Z)
        (col_idx : nat) (shown : list row_group_md) (g : row_group_md) :
  analyze_stats.find_column column_name (schema md) 0 = Some col_idx ->
  shown = firstn (Z.to_nat (Z.min max_row_groups (num_row_groups md)))
                 (row_groups md) ->
  Forall (fun g => (col_idx < List.length (columns g))%nat) shown ->
  In g shown ->
  stats_at col_idx g = Some {| bounds := None |} ->
  (exists st,
      analyze_stats.loop col_idx 0 shown analyze_stats.initial = Ok st
      /\ List.length (analyze_stats.lines st) = List.length shown
      /\ exists e, In e (analyze_stats.stats_list st)
                   /\ analyze_stats.e_bounds e = None)
  /\ analyze_stats.analyze_metadata md column_name max_row_groups
     = analyze_stats.Erreur TypeError.
Proof.
  intros Hc -> Hcols Hin Hs.
  destruct (loop_total _ _ Hcols 0 analyze_stats.initial) as [st Hl].
  pose proof (loop_spec _ _ _ _ _ Hl) as [Hst _]. simpl in Hst.
  pose proof (loop_line_indices _ _ _ _ _ Hl) as Hln. simpl in Hln.
  assert (He : exists e, In e (analyze_stats.stats_list st)
                         /\ analyze_stats.e_bounds e = None)
    by (rewrite Hst; now apply in_appended with (g := g)).
  split.
  - exists st. split; [exact Hl|]. split; [|exact He].
    apply (f_equal (@List.length Z)) in Hln.
    now rewrite !length_map, length_seq in Hln.
  - unfold analyze_stats.analyze_metadata. rewrite Hc, Hl.
    now rewrite traverse_comparable.
Qed.

Lemma statistics_without_bounds_end_analysis_witness :
  analyze_stats.find_column "origin" (schema samples.null_then_text) 0 = Some 0%nat
  /\ In (samples.group_md 2 samples.null_stats)
        (row_groups samples.null_then_text)
  /\ stats_at 0 (samples.group_md 2 samples.null_stats)
     = Some {| bounds := None |}
  /\ analyze_stats.analyze_metadata samples.null_then_text "origin" 10
     = analyze_stats.Erreur TypeError.
Proof.
  assert (H1 : analyze_stats.find_column "origin" (schema samples.null_then_text) 0
               = Some 0%nat) by reflexivity.
  assert (H2 : row_groups samples.null_then_text
               = firstn (Z.to_nat (Z.min 10 (num_row_groups samples.null_then_text)))
                        (row_groups samples.null_then_text)) by reflexivity.
  assert (H3 : Forall (fun g => (0 < List.length (columns g))%nat)
                      (row_groups samples.null_then_text))
    by (repeat constructor).
  assert (H4 : In (samples.group_md 2 samples.null_stats)
                  (row_groups samples.null_then_text)) by (left; reflexivity).
  assert (H5 : stats_at 0 (samples.group_md 2 samples.null_stats)
               = Some {| bounds := None |}) by reflexivity.
  split; [exact H1|]. split; [exact H4|]. split; [exact H5|].
  exact (proj2 (statistics_without_bounds_end_analysis
                  samples.null_then_text "origin" 10 0%nat _ _ H1 H2 H3 H4 H5)).
Defined.

(** ** The metadata inspector on a file with a row group *)

(** The detail of row group 0 stops at the compressed size, which the
    row group metadata does not have. *)
Lemma row_group_loop_raises (g : row_group_md) (rest : list row_group_md)
      (total_rows : Z) (row_group_sizes : list Z)
      (w : list checkParquetMetadata.line) :
  checkParquetMetadata.row_group_loop 0 (g :: rest) total_rows row_group_sizes w
  = (w ++ [checkParquetMetadata.RowGroup0 (num_rows g);
           checkParquetMetadata.TotalByteSize (total_byte_size g)],
     Raise AttributeError).
Proof.
  simpl. unfold Py.bind, checkParquetMetadata.print, Py.emit, Py.lift. simpl.
  now rewrite <- app_assoc.
Qed.

Lemma check_file_with_row_group (f : parquet) (g : row_group)
      (rest : list row_group) :
  pq_row_groups f = g :: rest ->
  checkParquetMetadata.check_parquet_file (Some (fs.Parquet f))
  = ([checkParquetMetadata.NumberOfRows (md_num_rows (read_metadata f));
      checkParquetMetadata.NumberOfRowGroups (num_row_groups (read_metadata f));
      checkParquetMetadata.NumberOfColumns (num_columns (read_metadata f))]
     ++ map (fun ic => checkParquetMetadata.SchemaLine (fst ic + 1) (snd ic))
            (combine (Py.range (num_columns (read_metadata f)))
                     (schema (read_metadata f)))
     ++ [checkParquetMetadata.RowGroup0 (num_rows (rg_md g));
         checkParquetMetadata.TotalByteSize (total_byte_size (rg_md g));
         checkParquetMetadata.ErrorReadingFile AttributeError],
     false).
Proof.
  intros H. unfold checkParquetMetadata.check_parquet_file,
    checkParquetMetadata.inspect.
  set (md := read_metadata f).
  assert (Hg : row_groups md = rg_md g :: map rg_md rest)
    by (unfold md, read_metadata; simpl; now rewrite H).
  unfold Py.bind at 1. unfold checkParquetMetadata.print at 1, Py.emit at 1.
  unfold Py.bind at 1. unfold checkParquetMetadata.print at 1, Py.emit at 1.
  unfold Py.bind at 1. unfold checkParquetMetadata.print at 1, Py.emit at 1.
  unfold Py.bind at 1. rewrite for_each_print.
  unfold Py.bind at 1. rewrite Hg, row_group_loop_raises.
  simpl. now rewrite <- !app_assoc.
Qed.

(** X16: [check_parquet_file] never returns [True]: a path that does not
    exist and a file that cannot be read are reported, a file without row
    groups fails on the average row group size, and a file with a row
    group fails on the compressed size of row group 0. *)
Theorem inspector_never_succeeds (target : option fs.file) :
  snd (checkParquetMetadata.check_parquet_file target) = false.
Proof.
  destruct target as [[f|]|]; [|reflexivity|reflexivity].
  destruct (pq_row_groups f) as [|g rest] eqn:E.
  - destruct (check_file_without_row_groups f E) as [schema_lines ->].
    reflexivity.
  - now rewrite (check_file_with_row_group f g rest E).
Qed.

(** X17: on a file with at least one row group the inspector prints the
    counts, the schema, then the rows and the total byte size of row
    group 0; reading the compressed size of the row group raises
    [AttributeError], the error is printed and the function returns
    [False]: no compression ratio, no row group sizes, no feature and no
    recommendation is printed. *)
Theorem inspector_stops_at_compressed_size
        (f : parquet) (g : row_group) (rest : list row_group) :
  pq_row_groups f = g :: rest ->
  checkParquetMetadata.check_parquet_file (Some (fs.Parquet f))
  = ([checkParquetMetadata.NumberOfRows (md_num_rows (read_metadata f));
      checkParquetMetadata.NumberOfRowGroups (num_row_groups (read_metadata f));
      checkParquetMetadata.NumberOfColumns (num_columns (read_metadata f))]
     ++ map (fun ic => checkParquetMetadata.SchemaLine (fst ic + 1) (snd ic))
            (combine (Py.range (num_columns (read_metadata f)))
                     (schema (read_metadata f)))
     ++ [checkParquetMetadata.RowGroup0 (num_rows (rg_md g));
         checkParquetMetadata.TotalByteSize (total_byte_size (rg_md g));
         checkParquetMetadata.ErrorReadingFile AttributeError],
     false).
Proof.
  apply check_file_with_row_group.
Qed.

Lemma inspector_stops_at_compressed_size_witness :
  checkParquetMetadata.check_parquet_file (Some (fs.Parquet samples.bac))
  = ([checkParquetMetadata.NumberOfRows 3;
      checkParquetMetadata.NumberOfRowGroups 1;
      checkParquetMetadata.NumberOfColumns 2;
      checkParquetMetadata.SchemaLine 1 "origin"%string;
      checkParquetMetadata.SchemaLine 2 "v"%string;
      checkParquetMetadata.RowGroup0 3;
      checkParquetMetadata.TotalByteSize 1;
      checkParquetMetadata.ErrorReadingFile AttributeError],
     false).
Proof.
  exact (inspector_stops_at_compressed_size samples.bac _ _ eq_refl).
Defined.

(** ** The inspection tools from the command line *)

(** X18: the simulator tool and the inspector tool end with the same
    status on the same arguments: 1 when no path is given or when the path
    is a directory without a file matching the pattern, 0 in every other
    case, a path that does not exist included; a run with status 0 looks
    at exactly one file, a run with status 1 at none. *)
Theorem inspection_tools_exit_status (argv : list string) (disk : fs.t) :
  let a := analyze_stats.main argv disk in
  let c := checkParquetMetadata.main argv disk in
  analyze_stats.exit_status a = checkParquetMetadata.exit_status c
  /\ (analyze_stats.exit_status a = 1
      <-> (List.length argv < 2)%nat
          \/ exists prog file_path rest entries,
               argv = prog :: file_path :: rest
               /\ disk file_path = Some (fs.Dir entries)
               /\ fs.glob_parquet entries = [])
  /\ (analyze_stats.exit_status a = 0 \/ analyze_stats.exit_status a = 1)
  /\ Z.of_nat (List.length (analyze_stats.analysed a))
     = 1 - analyze_stats.exit_status a
  /\ Z.of_nat (List.length (checkParquetMetadata.checked c))
     = 1 - checkParquetMetadata.exit_status c.
Proof.
  destruct argv as [|prog [|file_path rest]]; simpl.
  - repeat split; auto; intros; lia.
  - repeat split; auto; intros; lia.
  - destruct (disk file_path) as [[fl|entries]|] eqn:Ed.
    + simpl. repeat split; auto; try discriminate.
      intros [H|[p [fp [r [en [E [Hd _]]]]]]]; [lia|].
      inversion E; subst. congruence.
    + destruct (fs.glob_parquet entries) as [|first others] eqn:Eg; simpl.
      * repeat split; auto. intros _. right.
        exists prog, file_path, rest, entries. auto.
      * repeat split; auto; try discriminate.
        intros [H|[p [fp [r [en [E [Hd Hg]]]]]]]; [lia|].
        inversion E; subst. rewrite Ed in Hd. inversion Hd; subst. congruence.
    + simpl. repeat split; auto; try discriminate.
      intros [H|[p [fp [r [en [E [Hd _]]]]]]]; [lia|].
      inversion E; subst. congruence.
Qed.
